(** * JsonToXlsxConverter: the flatten transform, field derivation, row
    projection and the two event handlers of [converter.js].

    The development is a shallow embedding: every function of the class is a
    Rocq function of the same name, the private fields of the class and the
    DOM elements it touches are a record that the handlers pass along, and a
    JavaScript exception is the [Throw] outcome of a completion. *)

From Stdlib Require Import List String Ascii ZArith NArith Bool Lia.
From Stdlib Require Import DecimalString DecimalNat.
Import ListNotations.

Open Scope list_scope.
Open Scope string_scope.

Set Implicit Arguments.

(** ** The host: numbers and the date library

    A JSON number is an IEEE double in the browser.  The converter only
    converts a number to text, compares it with zero, and hands it to
    [moment]; these are the operations of the interface below, so that the
    theorems hold for any representation of numbers.  [moment_format n] stands
    for [moment(n).format('YYYY-MM-DD HH:mm:ss')] of the moment.js library,
    which is not part of the repository. *)

Class Host := {
  number : Type;
  Number_toString : number -> string;
  Number_isFinite : number -> bool;
  Number_gt0 : number -> bool;
  moment_format : number -> string
}.

(** ** Completions *)

(** An exception, with the text of its [message] property. *)
Inductive exn :=
| TypeError (message : string)
| SyntaxError (message : string).

Definition message_of (e : exn) : string :=
  match e with
  | TypeError m => m
  | SyntaxError m => m
  end.

Inductive completion (A : Type) :=
| Normal (a : A)
| Throw (e : exn).

Arguments Normal {A} a.
Arguments Throw {A} e.

Definition bind {A B : Type} (c : completion A) (k : A -> completion B) : completion B :=
  match c with
  | Normal a => k a
  | Throw e => Throw e
  end.

Notation "x <- c ;; k" := (bind c (fun x => k))
  (at level 61, c at next level, right associativity).

(** [data.map(f)] where [f] may throw: the first exception leaves the loop. *)
Fixpoint mapM {A B : Type} (f : A -> completion B) (l : list A) : completion (list B) :=
  match l with
  | [] => Normal []
  | a :: l' => b <- f a ;; bs <- mapM f l' ;; Normal (b :: bs)
  end.

(** ** Strings *)

(** A character of a Rocq string stands for one code unit of a JavaScript
    string. *)

Definition quote_char : ascii := ascii_of_nat 34.
Definition backslash : ascii := ascii_of_nat 92.

Definition string_of_nat (n : nat) : string := NilEmpty.string_of_uint (Nat.to_uint n).

(** [ToBoolean] of a string: only the empty string is falsy. *)
Definition truthy (s : string) : bool :=
  match s with
  | EmptyString => false
  | String _ _ => true
  end.

(** [haystack.includes(needle)] for an array of strings. *)
Definition includes (haystack : list string) (needle : string) : bool :=
  existsb (String.eqb needle) haystack.

Fixpoint drop (n : nat) (s : string) : string :=
  match n, s with
  | O, _ => s
  | S n', String _ s' => drop n' s'
  | S _, EmptyString => EmptyString
  end.

(** [s.replace(pattern, replacement)] with a string pattern: only the first
    occurrence is replaced.  (The replacement has no [$] in the code.) *)
Fixpoint replace (pattern replacement s : string) : string :=
  if prefix pattern s then replacement ++ drop (String.length pattern) s
  else match s with
       | EmptyString => EmptyString
       | String c s' => String c (replace pattern replacement s')
       end.

(** Array index keys: the canonical decimal strings of 0 .. 2^32 - 2.  An
    object enumerates these before its other keys, in ascending order. *)
Definition digit_of (c : ascii) : option N :=
  let n := N_of_ascii c in
  if ((48 <=? n) && (n <=? 57))%N then Some (n - 48)%N else None.

Fixpoint digits_value (acc : N) (s : string) : option N :=
  match s with
  | EmptyString => Some acc
  | String c s' =>
      match digit_of c with
      | Some d => digits_value (acc * 10 + d)%N s'
      | None => None
      end
  end.

Definition array_index (s : string) : option N :=
  match s with
  | EmptyString => None
  | String c s' =>
      if (Ascii.eqb c "0" && negb (String.eqb s' EmptyString))%bool then None
      else match digits_value 0 s with
           | Some n => if (n <=? 4294967294)%N then Some n else None
           | None => None
           end
  end.

Section Converter.

Context {host : Host}.

(** ** JSON values, as [JSON.parse] returns them

    An object is the list of its own enumerable properties in enumeration
    order (the keys of a parsed object are distinct); its prototype is
    [Object.prototype]. *)

Unset Elimination Schemes.

Inductive json :=
| JNull
| JBool (b : bool)
| JNum (n : number)
| JStr (s : string)
| JArr (items : list json)
| JObj (members : list (string * json)).

Set Elimination Schemes.

(** Induction over a JSON value reaches the items of an array and the values
    of the members of an object. *)
Fixpoint json_ind (P : json -> Prop)
    (HNull : P JNull)
    (HBool : forall b, P (JBool b))
    (HNum : forall n, P (JNum n))
    (HStr : forall s, P (JStr s))
    (HArr : forall items, Forall P items -> P (JArr items))
    (HObj : forall members, Forall (fun kv => P (snd kv)) members -> P (JObj members))
    (j : json) {struct j} : P j :=
  let rec := json_ind HNull HBool HNum HStr HArr HObj in
  match j with
  | JNull => HNull
  | JBool b => HBool b
  | JNum n => HNum n
  | JStr s => HStr s
  | JArr items =>
      HArr items
        ((fix all (l : list json) : Forall P l :=
            match l with
            | [] => Forall_nil P
            | x :: l' => Forall_cons x (rec x) (all l')
            end) items)
  | JObj members =>
      HObj members
        ((fix all (l : list (string * json)) : Forall (fun kv => P (snd kv)) l :=
            match l with
            | [] => Forall_nil _
            | kv :: l' => Forall_cons kv (rec (snd kv)) (all l')
            end) members)
  end.

(** ** Values held by the records the converter builds

    A record built by the converter holds JSON values; reading a property
    that a record lacks gives [undefined] or a member of [Object.prototype]. *)

Inductive value :=
| VUndefined
| VJson (j : json)
| VObjectPrototype
| VBuiltin (name : string).

(** What [Object.getPrototypeOf] gives for a record: [Object.prototype] for an
    object literal, [null] or another object once the [__proto__] setter has
    run. *)
Inductive prototype :=
| ObjectPrototype
| NullPrototype
| OtherPrototype (v : value).

Record object := mkObject {
  proto : prototype;
  props : list (string * value)
}.

(** The object literal [{}]. *)
Definition empty_object : object := mkObject ObjectPrototype [].

(** [Object.keys(o)]. *)
Definition keys (o : object) : list string := map fst (props o).

Fixpoint assoc {A : Type} (k : string) (ps : list (string * A)) : option A :=
  match ps with
  | [] => None
  | (k', v) :: ps' => if String.eqb k k' then Some v else assoc k ps'
  end.

(** The own property [k] of [o]. *)
Definition own (o : object) (k : string) : option value := assoc k (props o).

(** The function-valued members of [Object.prototype]. *)
Definition Object_prototype_members : list string :=
  [ "constructor"; "hasOwnProperty"; "isPrototypeOf"; "propertyIsEnumerable";
    "toLocaleString"; "toString"; "valueOf";
    "__defineGetter__"; "__defineSetter__"; "__lookupGetter__"; "__lookupSetter__" ].

Definition is_object (v : value) : bool :=
  match v with
  | VJson (JArr _) | VJson (JObj _) | VObjectPrototype | VBuiltin _ => true
  | _ => false
  end.

Definition value_of_prototype (p : prototype) : value :=
  match p with
  | ObjectPrototype => VObjectPrototype
  | NullPrototype => VJson JNull
  | OtherPrototype v => v
  end.

(** A property looked up on [Object.prototype] for a receiver whose prototype
    is [p]: [__proto__] is an accessor whose getter returns the prototype of
    the receiver. *)
Definition Object_prototype_get (p : prototype) (k : string) : value :=
  if String.eqb k "__proto__" then value_of_prototype p
  else if includes Object_prototype_members k then VBuiltin k
  else VUndefined.

(** [o[k]]: the own property, or else what the prototype chain gives.  The
    chain of an [OtherPrototype] is followed through the members of a JSON
    object and then [Object.prototype]; the members that arrays and functions
    add to the chain are left out.  No record built by the converter has such
    a prototype (lemmas [flatten_proto] and [project_proto]). *)
Definition get (o : object) (k : string) : value :=
  match own o k with
  | Some v => v
  | None =>
      match proto o with
      | NullPrototype => VUndefined
      | ObjectPrototype => Object_prototype_get ObjectPrototype k
      | OtherPrototype (VJson (JObj members)) =>
          match assoc k members with
          | Some j => VJson j
          | None => Object_prototype_get (proto o) k
          end
      | OtherPrototype _ => Object_prototype_get (proto o) k
      end
  end.

Fixpoint update (k : string) (v : value) (ps : list (string * value)) : list (string * value) :=
  match ps with
  | [] => []
  | (k', v') :: ps' =>
      if String.eqb k k' then (k', v) :: ps' else (k', v') :: update k v ps'
  end.

Fixpoint insert_index (i : N) (k : string) (v : value) (ps : list (string * value))
  : list (string * value) :=
  match ps with
  | [] => [(k, v)]
  | (k', v') :: ps' =>
      match array_index k' with
      | Some j => if (i <? j)%N then (k, v) :: ps else (k', v') :: insert_index i k v ps'
      | None => (k, v) :: ps
      end
  end.

(** A new own property takes its place in the enumeration order: among the
    array indices if it is one, after every other key if not. *)
Definition define (k : string) (v : value) (ps : list (string * value)) : list (string * value) :=
  match assoc k ps with
  | Some _ => update k v ps
  | None =>
      match array_index k with
      | Some i => insert_index i k v ps
      | None => (ps ++ [(k, v)])%list
      end
  end.

(** The setter of [Object.prototype.__proto__]: an object or [null] becomes
    the prototype of the receiver, any other value is ignored. *)
Definition set_proto (o : object) (v : value) : object :=
  match v with
  | VJson JNull => mkObject NullPrototype (props o)
  | VObjectPrototype => mkObject ObjectPrototype (props o)
  | _ => if is_object v then mkObject (OtherPrototype v) (props o) else o
  end.

(** [o[k] = v].  The assignment writes an own property, except that the key
    [__proto__] reaches the inherited setter when the object has no own
    property of that name and [Object.prototype] is on its chain. *)
Definition set (o : object) (k : string) (v : value) : object :=
  if (String.eqb k "__proto__" && negb (includes (keys o) k))%bool then
    match proto o with
    | NullPrototype => mkObject (proto o) (define k v (props o))
    | OtherPrototype (VJson (JObj members)) =>
        if includes (map fst members) k then mkObject (proto o) (define k v (props o))
        else set_proto o v
    | _ => set_proto o v
    end
  else mkObject (proto o) (define k v (props o)).

(** ** Text of values *)

Definition Boolean_toString (b : bool) : string := if b then "true" else "false".

Fixpoint concat_with (sep : string) (l : list string) : string :=
  match l with
  | [] => EmptyString
  | [s] => s
  | s :: l' => s ++ sep ++ concat_with sep l'
  end.

(** The text [Array.prototype.join] uses for an element: [null] is the empty
    string, an array is joined with a comma.  The converter joins only arrays
    of booleans, numbers and strings. *)
Fixpoint join_text (j : json) : string :=
  match j with
  | JNull => EmptyString
  | JBool b => Boolean_toString b
  | JNum n => Number_toString n
  | JStr s => s
  | JArr items => concat_with "," (map join_text items)
  | JObj _ => "[object Object]"
  end.

(** [items.join(sep)]. *)
Definition join (sep : string) (items : list json) : string :=
  concat_with sep (map join_text items).

Definition hex_digit (n : N) : ascii :=
  if (n <? 10)%N then ascii_of_N (48 + n) else ascii_of_N (87 + n).

(** One code unit inside a JSON string literal. *)
Definition JSON_quote_char (c : ascii) : string :=
  let n := N_of_ascii c in
  if (n =? 34)%N then String backslash (String quote_char EmptyString)
  else if (n =? 92)%N then String backslash (String backslash EmptyString)
  else if (n =? 8)%N then String backslash "b"
  else if (n =? 12)%N then String backslash "f"
  else if (n =? 10)%N then String backslash "n"
  else if (n =? 13)%N then String backslash "r"
  else if (n =? 9)%N then String backslash "t"
  else if (n <? 32)%N then
    String backslash ("u00" ++ String (hex_digit (n / 16)) (String (hex_digit (n mod 16)) EmptyString))
  else String c EmptyString.

Fixpoint JSON_quote_body (s : string) : string :=
  match s with
  | EmptyString => EmptyString
  | String c s' => JSON_quote_char c ++ JSON_quote_body s'
  end.

Definition JSON_quote (s : string) : string :=
  String quote_char (JSON_quote_body s ++ String quote_char EmptyString).

(** [JSON.stringify(j)] with no indentation. *)
Fixpoint JSON_stringify (j : json) : string :=
  match j with
  | JNull => "null"
  | JBool b => Boolean_toString b
  | JNum n => if Number_isFinite n then Number_toString n else "null"
  | JStr s => JSON_quote s
  | JArr items => "[" ++ concat_with "," (map JSON_stringify items) ++ "]"
  | JObj members =>
      "{" ++ concat_with ","
               (map (fun kv => JSON_quote (fst kv) ++ ":" ++ JSON_stringify (snd kv)) members)
          ++ "}"
  end.

(** ** The flatten transform (lines 138-179) *)

(** [#formatTimestampField]. *)
Definition formatTimestampField (timestamp : number) : string :=
  moment_format timestamp.

Definition timestampFields : list string :=
  [ "createdOn"; "modifiedOn"; "dueDate"; "reportedTime"; "remainingTime" ].

(** [parentKey ? `${parentKey}.${key}` : key] (line 157). *)
Definition newKey (parentKey key : string) : string :=
  if truthy parentKey then parentKey ++ "." ++ key else key.

(** [typeof item !== 'object' && !Array.isArray(item)] (line 164): [typeof]
    is ['object'] for null, for an array and for an object. *)
Definition simple (item : json) : bool :=
  match item with
  | JBool _ | JNum _ | JStr _ => true
  | JNull | JArr _ | JObj _ => false
  end.

(** [obj.hasOwnProperty(key)] for a key that the [for ... in] loop of line
    155 gives.  On an object that has a member called [hasOwnProperty] the
    call reaches that member, which is not a function. *)
Definition notAFunction : exn := TypeError "obj.hasOwnProperty is not a function".

Definition hasOwnProperty (obj : json) (key : string) : completion bool :=
  match obj with
  | JObj members =>
      if includes (map fst members) "hasOwnProperty" then Throw notAFunction else Normal true
  | _ => Normal true
  end.

(** Lines 160-175: what the loop stores for a value that is not a non-null,
    non-array object. *)
Definition store (key path : string) (v : json) (result : object) : object :=
  match v with
  | JArr items =>
      let allSimple := forallb simple items in
      if allSimple then set result path (VJson (JStr (join ", " items)))
      else set result path (VJson (JStr (JSON_stringify v)))
  | JNum n =>
      if (includes timestampFields key && Number_gt0 n)%bool
      then set result path (VJson (JStr (formatTimestampField n)))
      else set result path (VJson v)
  | _ => set result path (VJson v)
  end.

(** Lines 157-175 for one key: [recurse] is the recursive call on [obj[key]]. *)
Definition visit (recurse : string -> object -> completion object)
    (parentKey key : string) (v : json) (result : object) : completion object :=
  let path := newKey parentKey key in
  match v with
  | JObj _ => recurse path result
  | _ => Normal (store key path v result)
  end.

Section ForIn.

Variable A : Type.
Variable body : string -> A -> object -> completion object.

(** The loop over the members of an object, in enumeration order. *)
Fixpoint for_in (members : list (string * A)) (result : object) : completion object :=
  match members with
  | [] => Normal result
  | (key, v) :: rest => r <- body key v result ;; for_in rest r
  end.

(** The loop over the items of an array (or the code units of a string)
    from index [i] on; the key of an item is its index in decimal. *)
Fixpoint for_in_indexed (i : nat) (items : list A) (result : object) : completion object :=
  match items with
  | [] => Normal result
  | v :: rest => r <- body (string_of_nat i) v result ;; for_in_indexed (S i) rest r
  end.

End ForIn.

(** The code units of a string, each as a string of length one. *)
Fixpoint code_units (s : string) : list json :=
  match s with
  | EmptyString => []
  | String c s' => JStr (String c EmptyString) :: code_units s'
  end.

(** [#flattenAndCleanObject(obj, parentKey, result)].  The enumerable
    properties of [obj] are the members of an object, the items of an array
    and the code units of a string; null, a boolean and a number have none.
    The value of a property of a string is a string, for which the test of
    line 158 fails. *)
Fixpoint flattenAndCleanObject (obj : json) (parentKey : string) (result : object)
    {struct obj} : completion object :=
  match obj with
  | JObj members =>
      for_in (fun key v result =>
                b <- hasOwnProperty obj key ;;
                if b : bool then visit (flattenAndCleanObject v) parentKey key v result
                else Normal result)
             members result
  | JArr items =>
      for_in_indexed (fun key v result =>
                        b <- hasOwnProperty obj key ;;
                        if b : bool then visit (flattenAndCleanObject v) parentKey key v result
                        else Normal result)
                     0 items result
  | JStr s =>
      for_in_indexed (fun key v result =>
                        b <- hasOwnProperty obj key ;;
                        if b : bool then Normal (store key (newKey parentKey key) v result)
                        else Normal result)
                     0 (code_units s) result
  | JNull | JBool _ | JNum _ => Normal result
  end.

(** The body of the loop of line 155 for one member of [obj]. *)
Definition visitMember (obj : json) (parentKey key : string) (v : json) (result : object)
  : completion object :=
  b <- hasOwnProperty obj key ;;
  if b : bool then visit (flattenAndCleanObject v) parentKey key v result
  else Normal result.

(** [flatten(record)] of the specification: the call of line 77, with the
    default arguments [parentKey = ''] and [result = {}]. *)
Definition flatten (item : json) : completion object :=
  flattenAndCleanObject item EmptyString empty_object.

(** *** The transform as a list of writes

    [entries obj parentKey] lists, in the order of the loop, the key, the
    path and the value of every property for which lines 160-175 run;
    [shadowed obj] tells whether the loop meets an object that has a member
    called [hasOwnProperty].  Theorem [flattenAndCleanObject_entries] relates
    them to the transform. *)

Fixpoint indexed {A : Type} (i : nat) (items : list A) : list (string * A) :=
  match items with
  | [] => []
  | v :: rest => (string_of_nat i, v) :: indexed (S i) rest
  end.

(** The enumerable properties of a value, in the order of [for ... in]. *)
Definition own_enumerable (obj : json) : list (string * json) :=
  match obj with
  | JObj members => members
  | JArr items => indexed 0 items
  | JStr s => indexed 0 (code_units s)
  | JNull | JBool _ | JNum _ => []
  end.

(** The value that lines 160-175 assign for the key [key] holding [v]. *)
Definition emitted (key : string) (v : json) : json :=
  match v with
  | JArr items => JStr (if forallb simple items then join ", " items else JSON_stringify v)
  | JNum n =>
      if (includes timestampFields key && Number_gt0 n)%bool then JStr (formatTimestampField n)
      else v
  | _ => v
  end.

Definition entry : Type := string * string * json.

Definition write (result : object) (e : entry) : object :=
  let '(key, path, v) := e in store key path v result.

Fixpoint leaves (obj : json) (parentKey : string) {struct obj} : list entry :=
  match obj with
  | JObj members =>
      flat_map (fun kv =>
                  let path := newKey parentKey (fst kv) in
                  match snd kv with
                  | JObj _ => leaves (snd kv) path
                  | v => [(fst kv, path, v)]
                  end) members
  | _ => []
  end.

Definition member_entries (parentKey : string) (kv : string * json) : list entry :=
  let path := newKey parentKey (fst kv) in
  match snd kv with
  | JObj _ => leaves (snd kv) path
  | v => [(fst kv, path, v)]
  end.

Definition entries (obj : json) (parentKey : string) : list entry :=
  flat_map (member_entries parentKey) (own_enumerable obj).

Fixpoint shadows (obj : json) : bool :=
  match obj with
  | JObj members =>
      includes (map fst members) "hasOwnProperty" || existsb (fun kv => shadows (snd kv)) members
  | _ => false
  end.

Definition shadowed (obj : json) : bool :=
  match obj with
  | JObj _ => shadows obj
  | _ => existsb (fun kv => shadows (snd kv)) (own_enumerable obj)
  end.

(** What theorem [flattenAndCleanObject_entries] states of [obj]. *)
Definition flatten_as_entries (obj : json) : Prop :=
  forall parentKey result,
    flattenAndCleanObject obj parentKey result =
    if shadowed obj then Throw notAFunction
    else Normal (fold_left write (entries obj parentKey) result).

Definition is_JObj (v : json) : bool :=
  match v with
  | JObj _ => true
  | _ => false
  end.

(** The key sequences of the paths that lead from the root of a record to a
    leaf or to an array. *)
Fixpoint paths (j : json) : list (list string) :=
  match j with
  | JObj members =>
      flat_map (fun kv =>
                  match snd kv with
                  | JObj _ => map (cons (fst kv)) (paths (snd kv))
                  | _ => [[fst kv]]
                  end) members
  | _ => []
  end.

(** A value that is null, a boolean, a number or a string. *)
Definition primitive (v : value) : bool :=
  match v with
  | VJson (JNull | JBool _ | JNum _ | JStr _) => true
  | _ => false
  end.

(** A value that is a string or a number. *)
Definition string_or_number (v : value) : bool :=
  match v with
  | VJson (JNum _ | JStr _) => true
  | _ => false
  end.

(** A record whose values are primitive and whose prototype is
    [Object.prototype] or [null]. *)
Definition flat (o : object) : Prop :=
  Forall (fun kv => primitive (snd kv) = true) (props o) /\
  (proto o = ObjectPrototype \/ proto o = NullPrototype).

(** An element of the loaded array that is null, a boolean or a number. *)
Definition null_boolean_or_number (e : json) : bool :=
  match e with
  | JNull | JBool _ | JNum _ => true
  | _ => false
  end.

(** The path of a write. *)
Definition path_of (e : entry) : string := snd (fst e).

(** ** Header derivation (lines 216 and 292) *)

(** [new Set(l)] read back with [Array.from]: the elements in the order they
    were first added. *)
Definition Set_add (s : list string) (k : string) : list string :=
  if includes s k then s else (s ++ [k])%list.

Definition Set_from (l : list string) : list string := fold_left Set_add l [].

(** [Array.from(new Set(data.flatMap(Object.keys)))]. *)
Definition deriveFields (data : list object) : list string :=
  Set_from (flat_map keys data).

(** The position of the first occurrence of [k] in [l]. *)
Fixpoint first_index (k : string) (l : list string) : option nat :=
  match l with
  | [] => None
  | x :: l' => if String.eqb k x then Some O else option_map S (first_index k l')
  end.

(** ** Row projection (lines 121-127 and 224-230) *)

Definition projectRow (fields : list string) (row : object) : object :=
  fold_left (fun newRow field => set newRow field (get row field)) fields empty_object.

Definition project (data : list object) (fields : list string) : list object :=
  map (projectRow fields) data.

(** ** The converter: private fields and the DOM elements it uses *)

Record DOMelements := mkElements {
  jsonFileInput : option string;           (* the name of [files[0]], if any *)
  messageDiv : string;                     (* [textContent] *)
  selectedFileNameDiv : string;            (* [textContent] *)
  previewTableContainer : bool;            (* has the class [hidden] *)
  tableHeadersRow : list string;           (* the text of each [th] *)
  tableBody : list (list value);           (* what each [td] was given as text *)
  fieldSelectionContainer : bool;          (* has the class [hidden] *)
  fieldCheckboxesDiv : list (string * bool) (* [value] and [checked] of each box *)
}.

Record converter := mkConverter {
  elements : DOMelements;
  originalJsonData : json;
  flattenedAndCleanedData : list object;
  downloads : list (string * list object)  (* the calls of [XLSX.writeFile] *)
}.

Definition with_elements (f : DOMelements -> DOMelements) (c : converter) : converter :=
  mkConverter (f (elements c)) (originalJsonData c) (flattenedAndCleanedData c) (downloads c).

Definition with_originalJsonData (j : json) (c : converter) : converter :=
  mkConverter (elements c) j (flattenedAndCleanedData c) (downloads c).

Definition with_flattenedAndCleanedData (d : list object) (c : converter) : converter :=
  mkConverter (elements c) (originalJsonData c) d (downloads c).

Definition with_download (fileName : string) (sheet : list object) (c : converter) : converter :=
  mkConverter (elements c) (originalJsonData c) (flattenedAndCleanedData c)
              (downloads c ++ [(fileName, sheet)])%list.

Definition set_jsonFileInput (f : option string) (e : DOMelements) : DOMelements :=
  mkElements f (messageDiv e) (selectedFileNameDiv e) (previewTableContainer e)
             (tableHeadersRow e) (tableBody e) (fieldSelectionContainer e) (fieldCheckboxesDiv e).

Definition set_messageDiv (m : string) (e : DOMelements) : DOMelements :=
  mkElements (jsonFileInput e) m (selectedFileNameDiv e) (previewTableContainer e)
             (tableHeadersRow e) (tableBody e) (fieldSelectionContainer e) (fieldCheckboxesDiv e).

Definition set_selectedFileNameDiv (n : string) (e : DOMelements) : DOMelements :=
  mkElements (jsonFileInput e) (messageDiv e) n (previewTableContainer e)
             (tableHeadersRow e) (tableBody e) (fieldSelectionContainer e) (fieldCheckboxesDiv e).

Definition set_previewTableContainer (hidden : bool) (e : DOMelements) : DOMelements :=
  mkElements (jsonFileInput e) (messageDiv e) (selectedFileNameDiv e) hidden
             (tableHeadersRow e) (tableBody e) (fieldSelectionContainer e) (fieldCheckboxesDiv e).

Definition set_tableHeadersRow (h : list string) (e : DOMelements) : DOMelements :=
  mkElements (jsonFileInput e) (messageDiv e) (selectedFileNameDiv e) (previewTableContainer e)
             h (tableBody e) (fieldSelectionContainer e) (fieldCheckboxesDiv e).

Definition set_tableBody (b : list (list value)) (e : DOMelements) : DOMelements :=
  mkElements (jsonFileInput e) (messageDiv e) (selectedFileNameDiv e) (previewTableContainer e)
             (tableHeadersRow e) b (fieldSelectionContainer e) (fieldCheckboxesDiv e).

Definition set_fieldSelectionContainer (hidden : bool) (e : DOMelements) : DOMelements :=
  mkElements (jsonFileInput e) (messageDiv e) (selectedFileNameDiv e) (previewTableContainer e)
             (tableHeadersRow e) (tableBody e) hidden (fieldCheckboxesDiv e).

Definition set_fieldCheckboxesDiv (b : list (string * bool)) (e : DOMelements) : DOMelements :=
  mkElements (jsonFileInput e) (messageDiv e) (selectedFileNameDiv e) (previewTableContainer e)
             (tableHeadersRow e) (tableBody e) (fieldSelectionContainer e) b.

(** The converter after its constructor has run on a fresh page. *)
Definition initial : converter :=
  mkConverter (mkElements None EmptyString EmptyString true [] [] true []) (JArr []) [] [].

(** [querySelectorAll('input[type="checkbox"]:checked')] mapped to the values. *)
Definition checkedFields (c : converter) : list string :=
  map fst (filter snd (fieldCheckboxesDiv (elements c))).

(** [#renderTableRows]: a cell is given [rowData[header]], or the empty
    string when that is [undefined] (line 272). *)
Definition renderTableRows (data : list object) (headers : list string) (c : converter)
  : converter :=
  let cell row header :=
    match get row header with
    | VUndefined => VJson (JStr EmptyString)
    | v => v
    end in
  with_elements (set_tableBody (map (fun rowData => map (cell rowData) headers) data)) c.

(** [#renderTableHeaders]. *)
Definition renderTableHeaders (headers : list string) (c : converter) : converter :=
  with_elements (set_tableHeadersRow headers) c.

(** [#renderTable]. *)
Definition renderTable (data : list object) (c : converter) : converter :=
  match data with
  | [] => with_elements (set_previewTableContainer true) c
  | _ =>
      let headers := deriveFields data in
      with_elements (set_previewTableContainer false)
        (renderTableRows data headers (renderTableHeaders headers c))
  end.

(** [#populateFieldSelection]: one checked box per header. *)
Definition populateFieldSelection (data : list object) (c : converter) : converter :=
  match data with
  | [] => with_elements (set_fieldSelectionContainer true) c
  | _ =>
      let allHeaders := deriveFields data in
      with_elements (set_fieldSelectionContainer false)
        (with_elements (set_fieldCheckboxesDiv (map (fun header => (header, true)) allHeaders)) c)
  end.

(** The [changeHandler] of lines 220-232, after the box of [header] has
    flipped. *)
Definition changeHandler (header : string) (c : converter) : converter :=
  let flip box := if String.eqb (fst box) header then (fst box, negb (snd box)) else box in
  let c := with_elements (fun e => set_fieldCheckboxesDiv (map flip (fieldCheckboxesDiv e)) e) c in
  let currentSelectedFields := checkedFields c in
  let filteredData := project (flattenedAndCleanedData c) currentSelectedFields in
  renderTable filteredData c.

(** A file chosen in the file input: its name and what [JSON.parse] makes of
    its text ([JSON.parse] is the browser's). *)
Record File := mkFile {
  name : string;
  parsed : completion json
}.

Definition clearView (e : DOMelements) : DOMelements :=
  set_fieldCheckboxesDiv []
    (set_tableBody []
      (set_tableHeadersRow []
        (set_fieldSelectionContainer true
          (set_previewTableContainer true
            (set_messageDiv EmptyString e))))).

(** [reader.onload] (lines 69-86). *)
Definition reader_onload (result : completion json) (c : converter) : converter :=
  let catch (e : exn) (c : converter) :=
    with_elements (set_messageDiv ("Error reading JSON file: " ++ message_of e)) c in
  match result with
  | Throw e => catch e c
  | Normal data =>
      let c := with_originalJsonData data c in
      match data with
      | JArr items =>
          match mapM flatten items with
          | Throw e => catch e c
          | Normal rows =>
              let c := with_flattenedAndCleanedData rows c in
              let c := populateFieldSelection (flattenedAndCleanedData c) c in
              renderTable (flattenedAndCleanedData c) c
          end
      | _ => with_elements (set_messageDiv "JSON data must be an array of objects.") c
      end
  end.

(** [#handleJsonFileChange] up to the call of [reader.readAsText] (lines
    57-68 and 87-98); the reader calls [reader_onload] later. *)
Definition handleJsonFileChange (file : option File) (c : converter) : converter :=
  match file with
  | Some f =>
      with_elements
        (fun e => clearView (set_selectedFileNameDiv (name f) (set_jsonFileInput (Some (name f)) e)))
        c
  | None =>
      with_flattenedAndCleanedData []
        (with_originalJsonData (JArr [])
          (with_elements
             (fun e => clearView (set_selectedFileNameDiv "No file chosen" (set_jsonFileInput None e)))
             c))
  end.

(** A file load that runs to its end: the change event and then [onload]. *)
Definition load (f : File) (c : converter) : converter :=
  reader_onload (parsed f) (handleJsonFileChange (Some f) c).

(** The name of the spreadsheet (line 133). *)
Definition exportFileName (inputName : string) : string :=
  replace ".json" ".xlsx" inputName.

(** [#handleConvertButtonClick]: the converter after the click, and whether
    the handler returned or threw (nothing catches an exception here). *)
Definition handleConvertButtonClick (c : converter) : converter * completion unit :=
  match flattenedAndCleanedData c with
  | [] =>
      (with_elements (set_messageDiv "No data to convert. Please upload a JSON file first.") c,
       Normal tt)
  | _ =>
      let c := with_elements (set_messageDiv EmptyString) c in
      let selectedFields := checkedFields c in
      match selectedFields with
      | [] =>
          (with_elements (set_messageDiv "Please select at least one field to export.") c,
           Normal tt)
      | _ =>
          let dataToExport := project (flattenedAndCleanedData c) selectedFields in
          match jsonFileInput (elements c) with
          | None => (c, Throw (TypeError "Cannot read properties of undefined (reading 'name')"))
          | Some inputName =>
              let fileName := exportFileName inputName in
              let c := with_download fileName dataToExport c in
              (with_elements (set_messageDiv ("Conversion successful! Downloading " ++ fileName)) c,
               Normal tt)
          end
      end
  end.

(** ** Notions used to state further properties of the code *)

(** The last write of [es] that goes to the path [k]. *)
Fixpoint last_write (k : string) (es : list entry) : option entry :=
  match es with
  | [] => None
  | e :: es' =>
      match last_write k es' with
      | Some e' => Some e'
      | None => if String.eqb (path_of e) k then Some e else None
      end
  end.

(** The value that a write stores. *)
Definition written_value (e : entry) : value :=
  VJson (emitted (fst (fst e)) (snd e)).

(** What the user does on the page.  A chosen file is read to its end
    before the next event. *)
Inductive event :=
| FileChosen (f : File)
| FileDialogCancelled
| BoxToggled (header : string)
| ConvertClicked.

(** The handler that the page runs for an event: a box can be toggled only
    if it is on the page. *)
Definition step (c : converter) (ev : event) : converter :=
  match ev with
  | FileChosen f => load f c
  | FileDialogCancelled => handleJsonFileChange None c
  | BoxToggled header =>
      if includes (map fst (fieldCheckboxesDiv (elements c))) header
      then changeHandler header c else c
  | ConvertClicked => fst (handleConvertButtonClick c)
  end.

(** The page after the events [evs], from the state [c]. *)
Definition run (evs : list event) (c : converter) : converter := fold_left step evs c.

(** A file whose text is a JSON array that the transform accepts, giving
    the records [rows]. *)
Definition loads_as (f : File) (rows : list object) : Prop :=
  exists items, parsed f = Normal (JArr items) /\ mapM flatten items = Normal rows.

(** The boxes on the page, if any, are those of the records of the chosen
    file. *)
Definition boxes_match_file (loaded : list File) (c : converter) : Prop :=
  fieldCheckboxesDiv (elements c) = [] \/
  exists f,
    In f loaded /\
    jsonFileInput (elements c) = Some (name f) /\
    loads_as f (flattenedAndCleanedData c) /\
    map fst (fieldCheckboxesDiv (elements c)) = deriveFields (flattenedAndCleanedData c).

(** A spreadsheet that was written from a loaded file: its name comes from
    the name of the file, and its rows are the records of the file projected
    on some of their fields. *)
Definition written_from (loaded : list File) (download : string * list object) : Prop :=
  exists f rows fields,
    In f loaded /\
    loads_as f rows /\
    fields <> [] /\
    incl fields (deriveFields rows) /\
    download = (exportFileName (name f), project rows fields).

(** The files chosen during [evs]. *)
Fixpoint chosen (evs : list event) : list File :=
  match evs with
  | [] => []
  | FileChosen f :: evs' => f :: chosen evs'
  | _ :: evs' => chosen evs'
  end.

End Converter.

(** ** A host for running the model: integer numbers, dates in UTC

    Numbers are the integers, written in decimal (as JavaScript writes an
    integer below 10^21), and [moment] formats in the UTC time zone. *)

Module ZHost.

Definition decimal (z : Z) : string := NilZero.string_of_int (Z.to_int z).

Fixpoint zeros (n : nat) : string :=
  match n with
  | O => EmptyString
  | S n' => String "0" (zeros n')
  end.

Definition padded (width : nat) (z : Z) : string :=
  let s := decimal z in zeros (width - String.length s) ++ s.

(** Year, month and day of the day number [z] counted from 1970-01-01. *)
Definition civil_from_days (z : Z) : Z * Z * Z :=
  let z := (z + 719468)%Z in
  let era := (z / 146097)%Z in
  let doe := (z - era * 146097)%Z in
  let yoe := ((doe - doe / 1460 + doe / 36524 - doe / 146096) / 365)%Z in
  let doy := (doe - (365 * yoe + yoe / 4 - yoe / 100))%Z in
  let mp := ((5 * doy + 2) / 153)%Z in
  let d := (doy - (153 * mp + 2) / 5 + 1)%Z in
  let m := (if (mp <? 10)%Z then mp + 3 else mp - 9)%Z in
  let y := (yoe + era * 400 + (if (m <=? 2)%Z then 1 else 0))%Z in
  (y, m, d).

Definition utc_format (ms : Z) : string :=
  let secs := (ms / 1000)%Z in
  let '(y, m, d) := civil_from_days (secs / 86400) in
  let t := (secs mod 86400)%Z in
  padded 4 y ++ "-" ++ padded 2 m ++ "-" ++ padded 2 d ++ " " ++
  padded 2 (t / 3600) ++ ":" ++ padded 2 (t mod 3600 / 60) ++ ":" ++ padded 2 (t mod 60).

#[export] Instance host : Host := {
  number := Z;
  Number_toString := decimal;
  Number_isFinite := fun _ => true;
  Number_gt0 := fun z => (0 <? z)%Z;
  moment_format := utc_format
}.

End ZHost.

(** Values for the runs of the model. *)
Definition num (z : Z) : @json ZHost.host := @JNum ZHost.host z.

Definition one : @json ZHost.host := num 1.

(** The record [{a: 1}] as the transform builds it. *)
Definition row_a : @object ZHost.host := mkObject ObjectPrototype [("a", VJson one)].

(** The record [{a: 1, b: 1}] as the transform builds it. *)
Definition row_ab : @object ZHost.host :=
  mkObject ObjectPrototype [("a", VJson one); ("b", VJson one)].

(** A file with the text [[{"a":1,"b":1}]]. *)
Definition file_ab : @File ZHost.host :=
  mkFile "ab.json" (Normal (JArr [JObj [("a", one); ("b", one)]])).

(** A file whose text does not parse. *)
Definition file_broken : @File ZHost.host :=
  mkFile "broken.json" (Throw (SyntaxError "Unexpected end of JSON input")).

(** A file with the text [[]]. *)
Definition file_empty : @File ZHost.host := mkFile "empty.json" (Normal (JArr [])).


(** ** A host with the dates of the browser

    Numbers are the integers and the two infinities that [JSON.parse] can
    give (a literal such as [1e999] is [Infinity]); an integer is written in
    decimal, as JavaScript writes one below 10^21. *)

Module LocalHost.

Inductive jsnumber :=
| Finite (z : Z)
| PlusInfinity
| MinusInfinity.

(** The last time value of a Date: 8.64e15 milliseconds from the epoch. *)
Definition maxTime : Z := 8640000000000000.

(** ECMAScript's DayFromYear: the day number of the first day of year [y],
    counted from 1970-01-01. *)
Definition DayFromYear (y : Z) : Z :=
  (365 * (y - 1970) + (y - 1969) / 4 - (y - 1901) / 100 + (y - 1601) / 400)%Z.

(** ECMAScript's InLeapYear. *)
Definition InLeapYear (y : Z) : bool :=
  ((y mod 4 =? 0) && (negb (y mod 100 =? 0) || (y mod 400 =? 0)))%Z.

(** ECMAScript's YearFromTime, on day numbers: the year in which the day
    falls, found from an estimate that is off by at most one. *)
Definition YearFromDay (day : Z) : Z :=
  let y := (1970 + (400 * day) / 146097)%Z in
  if (day <? DayFromYear y)%Z then (y - 1)%Z
  else if (DayFromYear (y + 1) <=? day)%Z then (y + 1)%Z
  else y.

(** The day within the year on which month [m] starts (month 13 stands for
    the end of the year). *)
Definition month_start (leap : bool) (m : Z) : Z :=
  let l := (if leap then 1 else 0)%Z in
  match m with
  | 1 => 0
  | 2 => 31
  | 3 => 59 + l
  | 4 => 90 + l
  | 5 => 120 + l
  | 6 => 151 + l
  | 7 => 181 + l
  | 8 => 212 + l
  | 9 => 243 + l
  | 10 => 273 + l
  | 11 => 304 + l
  | 12 => 334 + l
  | _ => 365 + l
  end%Z.

(** ECMAScript's MonthFromTime, on the day within the year, counting the
    months from 1 as moment's [MM] does. *)
Definition MonthFromDay (leap : bool) (dayInYear : Z) : Z :=
  (if dayInYear <? month_start leap 2 then 1
   else if dayInYear <? month_start leap 3 then 2
   else if dayInYear <? month_start leap 4 then 3
   else if dayInYear <? month_start leap 5 then 4
   else if dayInYear <? month_start leap 6 then 5
   else if dayInYear <? month_start leap 7 then 6
   else if dayInYear <? month_start leap 8 then 7
   else if dayInYear <? month_start leap 9 then 8
   else if dayInYear <? month_start leap 10 then 9
   else if dayInYear <? month_start leap 11 then 10
   else if dayInYear <? month_start leap 12 then 11
   else 12)%Z.

(** The number of days of month [m] of year [y]. *)
Definition days_in_month (y m : Z) : Z :=
  (if m =? 2 then (if InLeapYear y then 29 else 28)
   else if (m =? 4) || (m =? 6) || (m =? 9) || (m =? 11) then 30
   else 31)%Z.

(** The day number, counted from 1970-01-01, of day [d] of month [m] of year
    [y]. *)
Definition days_from_civil (y m d : Z) : Z :=
  (DayFromYear y + month_start (InLeapYear y) m + (d - 1))%Z.

(** The pattern [YYYY-MM-DD HH:mm:ss]: every field in decimal, the year
    filled with zeros to four digits and the other fields to two. *)
Definition date_text (y m d h mi s : Z) : string :=
  ZHost.padded 4 y ++ "-" ++ ZHost.padded 2 m ++ "-" ++ ZHost.padded 2 d ++ " " ++
  ZHost.padded 2 h ++ ":" ++ ZHost.padded 2 mi ++ ":" ++ ZHost.padded 2 s.

(** The local date and time of the time value [t], in that pattern;
    [localTZA t] is the offset of local time from UTC at [t], in
    milliseconds. *)
Definition local_format (localTZA : Z -> Z) (t : Z) : string :=
  let secs := ((t + localTZA t) / 1000)%Z in
  let day := (secs / 86400)%Z in
  let secondInDay := (secs mod 86400)%Z in
  let y := YearFromDay day in
  let dayInYear := (day - DayFromYear y)%Z in
  let m := MonthFromDay (InLeapYear y) dayInYear in
  let d := (dayInYear - month_start (InLeapYear y) m + 1)%Z in
  date_text y m d (secondInDay / 3600) (secondInDay mod 3600 / 60) (secondInDay mod 60).

(** Modelled from the spec: [moment(n).format('YYYY-MM-DD HH:mm:ss')] of
    moment.js, which is not part of the repository.  The spec (4.1) has it
    write the date and time of [n] milliseconds since the epoch in local
    time; the calendar is that of ECMAScript's Date, which moment reads, and
    a number beyond the last time value of a Date has no date, for which
    moment writes [Invalid date]. *)
Definition moment_text (localTZA : Z -> Z) (n : jsnumber) : string :=
  match n with
  | Finite z =>
      if ((- maxTime <=? z) && (z <=? maxTime))%Z then local_format localTZA z
      else "Invalid date"
  | PlusInfinity | MinusInfinity => "Invalid date"
  end.

Definition toString (n : jsnumber) : string :=
  match n with
  | Finite z => ZHost.decimal z
  | PlusInfinity => "Infinity"
  | MinusInfinity => "-Infinity"
  end.

Definition isFinite (n : jsnumber) : bool :=
  match n with
  | Finite _ => true
  | PlusInfinity | MinusInfinity => false
  end.

(** [n > 0]. *)
Definition gt0 (n : jsnumber) : bool :=
  match n with
  | Finite z => (0 <? z)%Z
  | PlusInfinity => true
  | MinusInfinity => false
  end.

(** The host of a browser whose local time is [localTZA] away from UTC. *)
Definition host (localTZA : Z -> Z) : Host := {|
  number := jsnumber;
  Number_toString := toString;
  Number_isFinite := isFinite;
  Number_gt0 := gt0;
  moment_format := moment_text localTZA
|}.

(** What the transform writes for the number [n] under a timestamp key. *)
Definition timestamp_entry (localTZA : Z -> Z) (n : jsnumber) : @json (host localTZA) :=
  match n with
  | Finite z =>
      if (0 <? z)%Z
      then @JStr (host localTZA)
             (if (z <=? maxTime)%Z then local_format localTZA z else "Invalid date")
      else @JNum (host localTZA) n
  | PlusInfinity => @JStr (host localTZA) "Invalid date"
  | MinusInfinity => @JNum (host localTZA) n
  end.

(** [P] holds of [fuel] integers from [z] on. *)
Fixpoint all_from (fuel : nat) (z : Z) (P : Z -> bool) : bool :=
  match fuel with
  | O => true
  | S k => P z && all_from k (z + 1)%Z P
  end.

End LocalHost.

(** Two browsers for the runs: one on UTC, one five and a half hours ahead
    of it. *)
Definition utc : Z -> Z := fun _ => 0%Z.

Definition india : Z -> Z := fun _ => 19800000%Z.

(** A number of the host [LocalHost.host localTZA]. *)
Definition local_num (localTZA : Z -> Z) (z : Z) : @json (LocalHost.host localTZA) :=
  @JNum (LocalHost.host localTZA) (LocalHost.Finite z).

(** * Properties *)

Unset Implicit Arguments.

Section Properties.

Context {host : Host}.

(** ** Completions and loops *)

Lemma bind_Normal {A B : Type} (a : A) (k : A -> completion B) :
  bind (Normal a) k = k a.
Proof. reflexivity. Qed.

Lemma bind_assoc {A B C : Type} (c : completion A)
      (k : A -> completion B) (h : B -> completion C) :
  bind (bind c k) h = bind c (fun a => bind (k a) h).
Proof. destruct c; reflexivity. Qed.

Lemma bind_inv {A B : Type} (c : completion A) (k : A -> completion B) (b : B) :
  bind c k = Normal b -> exists a, c = Normal a /\ k a = Normal b.
Proof. destruct c as [a|e]; simpl; intros H; [exists a; auto | discriminate]. Qed.

Lemma for_in_app {A : Type} (body : string -> A -> object -> completion object)
      (pre post : list (string * A)) (result : object) :
  for_in body (pre ++ post) result = (r <- for_in body pre result ;; for_in body post r).
Proof.
  revert result; induction pre as [|[key v] pre IH]; intros result; simpl.
  - reflexivity.
  - destruct (body key v result) as [r|e]; simpl; [apply IH | reflexivity].
Qed.

Lemma flattenAndCleanObject_JObj (members : list (string * json)) (parentKey : string)
      (result : object) :
  flattenAndCleanObject (JObj members) parentKey result =
  for_in (visitMember (JObj members) parentKey) members result.
Proof. reflexivity. Qed.

(** The loop of [flattenAndCleanObject] around one member of the object. *)
Lemma flattenAndCleanObject_member (pre post : list (string * json)) (key : string) (v : json)
      (parentKey : string) (result : object) :
  let obj := JObj (pre ++ (key, v) :: post) in
  flattenAndCleanObject obj parentKey result =
  (r1 <- for_in (visitMember obj parentKey) pre result ;;
   r2 <- visitMember obj parentKey key v r1 ;;
   for_in (visitMember obj parentKey) post r2).
Proof.
  intros obj. unfold obj at 1. rewrite flattenAndCleanObject_JObj, for_in_app. reflexivity.
Qed.

Lemma for_in_indexed_eq {A : Type} (body : string -> A -> object -> completion object)
      (i : nat) (items : list A) (result : object) :
  for_in_indexed body i items result = for_in body (indexed i items) result.
Proof.
  revert i result; induction items as [|v items IH]; intros i result; simpl.
  - reflexivity.
  - destruct (body (string_of_nat i) v result); simpl; [apply IH | reflexivity].
Qed.

Lemma for_in_ext {A : Type} (body body' : string -> A -> object -> completion object)
      (members : list (string * A)) (result : object) :
  (forall key v r, In (key, v) members -> body key v r = body' key v r) ->
  for_in body members result = for_in body' members result.
Proof.
  revert result; induction members as [|[key v] members IH]; intros result H; simpl.
  - reflexivity.
  - rewrite (H key v result) by (left; reflexivity).
    destruct (body' key v result); simpl; [|reflexivity].
    apply IH. intros; apply H; right; assumption.
Qed.

Lemma indexed_code_units (i : nat) (s : string) (key : string) (v : json) :
  In (key, v) (indexed i (code_units s)) -> exists c, v = JStr (String c EmptyString).
Proof.
  revert i; induction s as [|c s IH]; intros i; simpl.
  - intros [].
  - intros [H|H]; [inversion H; eauto | eapply IH; eassumption].
Qed.

(** Every root runs the same loop over its enumerable properties. *)
Lemma flattenAndCleanObject_own_enumerable (obj : json) (parentKey : string) (result : object) :
  flattenAndCleanObject obj parentKey result =
  for_in (visitMember obj parentKey) (own_enumerable obj) result.
Proof.
  destruct obj; simpl; try reflexivity.
  - rewrite for_in_indexed_eq. apply for_in_ext.
    intros key v r H. apply indexed_code_units in H. destruct H as [c ->]. reflexivity.
  - rewrite for_in_indexed_eq. reflexivity.
Qed.

Lemma hasOwnProperty_true (members : list (string * json)) (key : string) :
  includes (map fst members) "hasOwnProperty" = false ->
  hasOwnProperty (JObj members) key = Normal true.
Proof. intros H. unfold hasOwnProperty. rewrite H. reflexivity. Qed.

(** ** Records: reading back what was written *)

Lemma assoc_In {A : Type} (k : string) (v : A) (ps : list (string * A)) :
  assoc k ps = Some v -> In (k, v) ps.
Proof.
  induction ps as [|[k' v'] ps IH]; simpl; [discriminate|].
  destruct (String.eqb_spec k k') as [->|Hne].
  - intros H; inversion H; auto.
  - auto.
Qed.

Lemma assoc_None {A : Type} (k : string) (ps : list (string * A)) :
  assoc k ps = None <-> ~ In k (map fst ps).
Proof.
  induction ps as [|[k' v'] ps IH]; simpl.
  - split; auto.
  - destruct (String.eqb_spec k k') as [->|Hne].
    + split; [discriminate | intros H; exfalso; apply H; auto].
    + rewrite IH. split; [intros H [E|E]; [congruence | auto] | intros H E; apply H; auto].
Qed.

Lemma includes_In (l : list string) (k : string) : includes l k = true <-> In k l.
Proof.
  unfold includes. rewrite existsb_exists. split.
  - intros [x [Hx E]]. apply String.eqb_eq in E. subst; assumption.
  - intros H. exists k. split; [assumption | apply String.eqb_refl].
Qed.

Lemma includes_false (l : list string) (k : string) : includes l k = false <-> ~ In k l.
Proof.
  rewrite <- includes_In. destruct (includes l k); split; congruence.
Qed.

Lemma assoc_update (k k' : string) (v w : value) (ps : list (string * value)) :
  assoc k ps = Some w ->
  assoc k' (update k v ps) = if String.eqb k' k then Some v else assoc k' ps.
Proof.
  induction ps as [|[k0 v0] ps IH]; simpl; [discriminate|].
  destruct (String.eqb_spec k k0) as [->|Hne]; simpl.
  - intros _. destruct (String.eqb k' k0); reflexivity.
  - intros H. rewrite (IH H).
    destruct (String.eqb_spec k' k0) as [->|Hne']; [|reflexivity].
    destruct (String.eqb_spec k0 k); congruence.
Qed.

Lemma assoc_insert_index (i : N) (k k' : string) (v : value) (ps : list (string * value)) :
  assoc k ps = None ->
  assoc k' (insert_index i k v ps) = if String.eqb k' k then Some v else assoc k' ps.
Proof.
  induction ps as [|[k0 v0] ps IH]; simpl; [reflexivity|].
  destruct (String.eqb_spec k k0) as [->|Hne]; [discriminate|]. intros H.
  destruct (array_index k0) as [j|]; [destruct (i <? j)%N|]; simpl; try reflexivity.
  rewrite (IH H).
  destruct (String.eqb_spec k' k0) as [->|Hne']; [|reflexivity].
  destruct (String.eqb_spec k0 k); congruence.
Qed.

Lemma assoc_app_new (k k' : string) (v : value) (ps : list (string * value)) :
  assoc k ps = None ->
  assoc k' (ps ++ [(k, v)])%list = if String.eqb k' k then Some v else assoc k' ps.
Proof.
  induction ps as [|[k0 v0] ps IH]; simpl; [reflexivity|].
  destruct (String.eqb_spec k k0) as [->|Hne]; [discriminate|]. intros H.
  rewrite (IH H).
  destruct (String.eqb_spec k' k0) as [->|Hne']; [|reflexivity].
  destruct (String.eqb_spec k0 k); congruence.
Qed.

(** After [define k v], the key [k] holds [v] and every other key holds
    what it held. *)
Lemma assoc_define (k k' : string) (v : value) (ps : list (string * value)) :
  assoc k' (define k v ps) = if String.eqb k' k then Some v else assoc k' ps.
Proof.
  unfold define. destruct (assoc k ps) as [w|] eqn:E.
  - eapply assoc_update; eassumption.
  - destruct (array_index k); [apply assoc_insert_index | apply assoc_app_new]; assumption.
Qed.

Lemma In_update (k : string) (v : value) (ps : list (string * value)) (kv : string * value) :
  In kv (update k v ps) -> kv = (k, v) \/ In kv ps.
Proof.
  induction ps as [|[k0 v0] ps IH]; simpl; [auto|].
  destruct (String.eqb_spec k k0) as [->|Hne]; simpl; intros [H|H]; auto.
  destruct (IH H); auto.
Qed.

Lemma In_insert_index (i : N) (k : string) (v : value) (ps : list (string * value))
      (kv : string * value) :
  In kv (insert_index i k v ps) -> kv = (k, v) \/ In kv ps.
Proof.
  induction ps as [|[k0 v0] ps IH]; simpl; [intros [H|[]]; auto|].
  destruct (array_index k0) as [j|]; [destruct (i <? j)%N|]; simpl; intros [H|H]; auto.
  destruct (IH H); auto.
Qed.

Lemma In_define (k : string) (v : value) (ps : list (string * value)) (kv : string * value) :
  In kv (define k v ps) -> kv = (k, v) \/ In kv ps.
Proof.
  unfold define. destruct (assoc k ps); [apply In_update|].
  destruct (array_index k); [apply In_insert_index|].
  intros H. apply in_app_or in H. destruct H as [H|[H|[]]]; auto.
Qed.

(** An assignment adds at most the pair it writes. *)
Lemma In_props_set (o : object) (k : string) (v : value) (kv : string * value) :
  In kv (props (set o k v)) -> kv = (k, v) \/ In kv (props o).
Proof.
  unfold set, set_proto.
  repeat match goal with
         | |- context [if ?b then _ else _] => destruct b
         | |- context [match ?x with _ => _ end] => destruct x
         end; simpl; auto using In_define.
Qed.

Lemma own_set_other (o : object) (k k' : string) (v : value) :
  k' <> k -> own (set o k v) k' = own o k'.
Proof.
  intros Hne. assert (E : String.eqb k' k = false) by (apply String.eqb_neq; assumption).
  unfold set, set_proto, own.
  repeat match goal with
         | |- context [if ?b then _ else _] => destruct b
         | |- context [match ?x with _ => _ end] => destruct x
         end; simpl; try reflexivity; rewrite assoc_define, E; reflexivity.
Qed.

Lemma own_set_same (o : object) (k : string) (v : value) :
  k <> "__proto__" -> own (set o k v) k = Some v.
Proof.
  intros Hne. unfold set.
  assert (E : String.eqb k "__proto__" = false) by (apply String.eqb_neq; assumption).
  rewrite E. simpl. unfold own. simpl. rewrite assoc_define, String.eqb_refl. reflexivity.
Qed.

Lemma In_keys_set (o : object) (k k' : string) (v : value) :
  In k' (keys (set o k v)) -> k' = k \/ In k' (keys o).
Proof.
  unfold keys. intros H. apply in_map_iff in H. destruct H as [[k0 v0] [E H]].
  simpl in E; subst k0. apply In_props_set in H. destruct H as [H|H].
  - inversion H; auto.
  - right. apply in_map_iff. exists (k', v0); auto.
Qed.

Lemma own_keys (o : object) (k : string) : own o k = None <-> ~ In k (keys o).
Proof. apply assoc_None. Qed.

(** ** The transform as a list of writes *)

Lemma leaves_entries (members : list (string * json)) (parentKey : string) :
  leaves (JObj members) parentKey = entries (JObj members) parentKey.
Proof. reflexivity. Qed.

Lemma for_in_visitMember (obj : json) (parentKey : string) (l : list (string * json)) :
  (forall key, hasOwnProperty obj key = Normal true) ->
  Forall (fun kv => match snd kv with JObj _ => flatten_as_entries (snd kv) | _ => True end) l ->
  forall result,
    for_in (visitMember obj parentKey) l result =
    if existsb (fun kv => shadows (snd kv)) l then Throw notAFunction
    else Normal (fold_left write (flat_map (member_entries parentKey) l) result).
Proof.
  intros Hown Hall. induction Hall as [|[key v] l Hv Hall IH]; intros result.
  - reflexivity.
  - cbn [for_in existsb flat_map fst snd]. unfold visitMember at 1. rewrite Hown. cbn [bind].
    rewrite fold_left_app.
    destruct v;
      try (cbn [visit shadows orb member_entries fst snd fold_left write]; apply IH).
    cbn [visit member_entries fst snd] in Hv |- *.
    rewrite (Hv (newKey parentKey key) result).
    change (shadowed (JObj members)) with (shadows (JObj members)).
    destruct (shadows (JObj members)); cbn [bind orb]; [reflexivity|].
    rewrite leaves_entries. apply IH.
Qed.

Lemma Forall_indexed {A : Type} (P : A -> Prop) (i : nat) (items : list A) :
  Forall P items -> Forall (fun kv => P (snd kv)) (indexed i items).
Proof.
  intros H; revert i; induction H; intros i; simpl; constructor; auto.
Qed.

(** The transform throws exactly when the loop meets an object with a member
    called [hasOwnProperty]; otherwise it performs the writes of [entries],
    in order, on [result]. *)
Theorem flattenAndCleanObject_entries (obj : json) : flatten_as_entries obj.
Proof.
  induction obj as [| b | n | s | items IH | members IH] using json_ind;
    intros parentKey result; try reflexivity.
  - rewrite flattenAndCleanObject_own_enumerable.
    apply for_in_visitMember; [reflexivity|].
    apply Forall_forall. intros [key v] H. apply indexed_code_units in H.
    destruct H as [c ->]. exact I.
  - rewrite flattenAndCleanObject_own_enumerable.
    apply for_in_visitMember; [reflexivity|].
    apply (@Forall_indexed json
             (fun v => match v with JObj _ => flatten_as_entries v | _ => True end)).
    eapply Forall_impl; [|exact IH]. intros v Hv; destruct v; auto.
  - rewrite flattenAndCleanObject_JObj. cbn [shadowed shadows].
    destruct (includes (map fst members) "hasOwnProperty") eqn:Hshadow; cbn [orb].
    + destruct members as [|[key v] members]; [discriminate|].
      cbn [for_in]. unfold visitMember, hasOwnProperty. rewrite Hshadow. reflexivity.
    + apply for_in_visitMember.
      * intros key. apply hasOwnProperty_true. assumption.
      * eapply Forall_impl; [|exact IH]. intros [key v] Hv; destruct v; simpl; auto.
Qed.

Lemma store_set (key path : string) (v : json) (result : object) :
  store key path v result = set result path (VJson (emitted key v)).
Proof.
  destruct v; cbn [store emitted]; try reflexivity.
  - destruct (includes timestampFields key && Number_gt0 n)%bool; reflexivity.
  - destruct (forallb simple items); reflexivity.
Qed.

Lemma emitted_primitive (key : string) (v : json) :
  is_JObj v = false -> primitive (VJson (emitted key v)) = true.
Proof.
  destruct v; cbn [emitted is_JObj primitive]; try reflexivity; try discriminate.
  destruct (includes timestampFields key && Number_gt0 n)%bool; reflexivity.
Qed.

(** No write of the transform has an object as its value. *)
Lemma leaves_not_object (obj : json) :
  forall parentKey, Forall (fun e : entry => is_JObj (snd e) = false) (leaves obj parentKey).
Proof.
  induction obj as [| b | n | s | items IH | members IH] using json_ind;
    intros parentKey; try constructor.
  cbn [leaves]. revert parentKey.
  induction IH as [|[key v] members Hv _ IHm]; intros parentKey; cbn [flat_map]; [constructor|].
  apply Forall_app. split; [|apply IHm].
  destruct v; cbn [fst snd]; try (constructor; [reflexivity | constructor]).
  apply Hv.
Qed.

Lemma entries_not_object (obj : json) (parentKey : string) :
  Forall (fun e : entry => is_JObj (snd e) = false) (entries obj parentKey).
Proof.
  unfold entries. induction (own_enumerable obj) as [|[key v] l IH]; cbn [flat_map]; [constructor|].
  apply Forall_app. split; [|exact IH].
  destruct v; cbn [member_entries fst snd]; try (constructor; [reflexivity | constructor]).
  apply leaves_not_object.
Qed.

Lemma flat_empty_object : flat empty_object.
Proof. split; [constructor | left; reflexivity]. Qed.

Lemma flat_set (o : object) (k : string) (v : value) :
  flat o -> primitive v = true -> flat (set o k v).
Proof.
  intros [Hprops Hproto] Hv. split.
  - apply Forall_forall. intros kv H. apply In_props_set in H. destruct H as [->|H].
    + exact Hv.
    + revert kv H. apply Forall_forall. exact Hprops.
  - destruct o as [p ps]. cbn [proto] in Hproto. unfold set, set_proto. cbn [proto props].
    destruct v as [| j | |]; try discriminate.
    destruct j; try discriminate;
      destruct Hproto as [-> | ->]; cbn [is_object];
      repeat match goal with
             | |- context [if ?b then _ else _] => destruct b
             end; cbn [proto]; auto.
Qed.

Lemma flat_writes (es : list entry) (result : object) :
  Forall (fun e : entry => is_JObj (snd e) = false) es ->
  flat result -> flat (fold_left write es result).
Proof.
  intros H; revert result; induction H as [|[[key path] v] es Hv _ IH]; intros result Hr.
  - exact Hr.
  - cbn [fold_left write]. apply IH. rewrite store_set.
    apply flat_set; [exact Hr | apply emitted_primitive; exact Hv].
Qed.

(** The transform keeps a record flat: it only adds primitive values, and
    the only prototype it can install is [null]. *)
Lemma flattenAndCleanObject_flat (obj : json) (parentKey : string) (result r : object) :
  flat result -> flattenAndCleanObject obj parentKey result = Normal r -> flat r.
Proof.
  intros Hr. rewrite flattenAndCleanObject_entries.
  destruct (shadowed obj); [discriminate|]. intros H; inversion H; subst r.
  apply flat_writes; [apply entries_not_object | exact Hr].
Qed.

Lemma flatten_proto (item : json) (r : object) :
  flatten item = Normal r -> proto r = ObjectPrototype \/ proto r = NullPrototype.
Proof.
  intros H. eapply flattenAndCleanObject_flat in H; [apply H | apply flat_empty_object].
Qed.

(** ** Paths *)

Lemma append_assoc (a b c : string) : (a ++ b) ++ c = a ++ (b ++ c).
Proof. induction a as [|x a IH]; simpl; [reflexivity | rewrite IH; reflexivity]. Qed.

Lemma length_append (a b : string) :
  String.length (a ++ b) = String.length a + String.length b.
Proof. induction a as [|x a IH]; simpl; [reflexivity | rewrite IH; reflexivity]. Qed.

Lemma truthy_append (a b : string) : truthy a = true -> truthy (a ++ b) = true.
Proof. destruct a; [discriminate | reflexivity]. Qed.

Lemma newKey_truthy (parentKey key : string) :
  truthy parentKey = true -> newKey parentKey key = parentKey ++ "." ++ key.
Proof. unfold newKey. intros ->. reflexivity. Qed.

(** Below a non-empty prefix every write goes to a path that extends the
    prefix by a dot and more. *)
Lemma leaves_below (obj : json) :
  forall parentKey, truthy parentKey = true ->
    Forall (fun e => exists rest, path_of e = parentKey ++ "." ++ rest) (leaves obj parentKey).
Proof.
  induction obj as [| b | n | s | items IH | members IH] using json_ind;
    intros parentKey Hp; try constructor.
  cbn [leaves].
  induction IH as [|[key v] members Hv _ IHm]; cbn [flat_map]; [constructor|].
  apply Forall_app. split; [|apply IHm].
  cbn [fst snd]. rewrite (newKey_truthy parentKey key Hp).
  destruct v; try (constructor; [exists key; reflexivity | constructor]).
  cbn [snd] in Hv.
  eapply Forall_impl; [|apply Hv; apply truthy_append; exact Hp].
  intros e [rest ->]. exists (key ++ "." ++ rest).
  rewrite !append_assoc. reflexivity.
Qed.

Lemma own_writes_other (es : list entry) (result : object) (k : string) :
  ~ In k (map path_of es) -> own (fold_left write es result) k = own result k.
Proof.
  revert result; induction es as [|[[key path] v] es IH]; intros result H; cbn [fold_left].
  - reflexivity.
  - rewrite IH by (intros E; apply H; right; exact E).
    cbn [write]. rewrite store_set. apply own_set_other.
    intros E. apply H. left. symmetry. exact E.
Qed.

Lemma append_longer (a rest : string) : a ++ "." ++ rest <> a.
Proof.
  intros E. apply (f_equal String.length) in E. rewrite !length_append in E. simpl in E. lia.
Qed.

(** The recursive call for a non-empty path leaves the entry at that very
    path as it was. *)
Lemma flattenAndCleanObject_keeps_parentKey (members : list (string * json))
      (parentKey : string) (result r : object) :
  truthy parentKey = true ->
  flattenAndCleanObject (JObj members) parentKey result = Normal r ->
  own r parentKey = own result parentKey.
Proof.
  intros Hp. rewrite flattenAndCleanObject_entries.
  destruct (shadowed (JObj members)); [discriminate|]. intros H; inversion H; subst r.
  apply own_writes_other. rewrite <- leaves_entries. intros E.
  apply in_map_iff in E. destruct E as [e [E He]].
  pose proof (leaves_below (JObj members) parentKey Hp) as Hall.
  rewrite Forall_forall in Hall. destruct (Hall e He) as [rest Hrest].
  rewrite Hrest in E. exact (append_longer _ _ E).
Qed.

(** ** A member that holds an object *)

(** A member whose value is a non-null, non-array object is handled by the
    recursive call alone: the transform runs the members before it, the
    [hasOwnProperty] test of line 156, the transform of the nested object
    with [newKey parentKey key] as parent key, and then the members after it.
    When [newKey parentKey key] is not empty the recursive call leaves the
    entry at that path as it was, and [flatten({a: {b: 1, c: 2}})] is
    [{"a.b": 1, "a.c": 2}]. *)
Lemma flattenAndCleanObject_object_member :
  (forall (pre post : list (string * json)) (key : string) (sub : list (string * json))
          (parentKey : string) (result : object),
      let obj := JObj (pre ++ (key, JObj sub) :: post) in
      flattenAndCleanObject obj parentKey result =
      (r1 <- for_in (visitMember obj parentKey) pre result ;;
       _ <- hasOwnProperty obj key ;;
       r2 <- flattenAndCleanObject (JObj sub) (newKey parentKey key) r1 ;;
       for_in (visitMember obj parentKey) post r2)) /\
  (forall (key : string) (sub : list (string * json)) (parentKey : string) (r1 r2 : object),
      truthy (newKey parentKey key) = true ->
      flattenAndCleanObject (JObj sub) (newKey parentKey key) r1 = Normal r2 ->
      own r2 (newKey parentKey key) = own r1 (newKey parentKey key)) /\
  (forall one two : number,
      flatten (JObj [("a", JObj [("b", JNum one); ("c", JNum two)])]) =
      Normal (mkObject ObjectPrototype [("a.b", VJson (JNum one)); ("a.c", VJson (JNum two))])).
Proof.
  split; [|split].
  - intros pre post key sub parentKey result obj.
    unfold obj at 1. rewrite flattenAndCleanObject_member. fold obj.
    destruct (for_in (visitMember obj parentKey) pre result) as [r1|e]; [|reflexivity].
    cbn [bind]. unfold visitMember at 1.
    destruct (hasOwnProperty obj key) as [[|]|e] eqn:E; cbn [bind visit]; try reflexivity.
    unfold obj, hasOwnProperty in E.
    destruct (includes _ "hasOwnProperty"); discriminate.
  - intros key sub parentKey r1 r2. apply flattenAndCleanObject_keeps_parentKey.
  - intros one two. reflexivity.
Qed.

(** ** C1: what the code does for a member that holds an array *)

Lemma simple_spec (item : json) :
  simple item = true <->
  (exists b, item = JBool b) \/ (exists n, item = JNum n) \/ (exists s, item = JStr s).
Proof.
  split.
  - destruct item; try discriminate; eauto.
  - intros [[b ->]|[[n ->]|[s ->]]]; reflexivity.
Qed.

(** An array is joined with [", "] when each of its items is a boolean, a
    number or a string, and serialized otherwise. *)
Lemma flattenAndCleanObject_array_member
    (pre post : list (string * json)) (key : string) (items : list json)
    (parentKey : string) (result : object) :
  let obj := JObj (pre ++ (key, JArr items) :: post) in
  flattenAndCleanObject obj parentKey result =
  (r1 <- for_in (visitMember obj parentKey) pre result ;;
   _ <- hasOwnProperty obj key ;;
   for_in (visitMember obj parentKey) post
     (set r1 (newKey parentKey key)
        (VJson (JStr (if forallb simple items then join ", " items
                      else JSON_stringify (JArr items)))))).
Proof.
  intros obj. unfold obj at 1. rewrite flattenAndCleanObject_member. fold obj.
  destruct (for_in (visitMember obj parentKey) pre result) as [r1|e]; [|reflexivity].
  cbn [bind]. unfold visitMember at 1.
  destruct (hasOwnProperty obj key) as [[|]|e] eqn:E; cbn [bind visit store]; try reflexivity.
  - destruct (forallb simple items); reflexivity.
  - unfold obj, hasOwnProperty in E.
    destruct (includes _ "hasOwnProperty"); discriminate.
Qed.

(** ** A member that holds a number under a timestamp key *)

(** For any host: under a key of [timestampFields] a number for which
    [Number_gt0] holds is replaced by what [moment_format] gives, and any
    other number is kept. *)
Lemma flattenAndCleanObject_timestamp_member
    (pre post : list (string * json)) (key : string) (n : number)
    (parentKey : string) (result : object) :
  In key timestampFields ->
  let obj := JObj (pre ++ (key, JNum n) :: post) in
  flattenAndCleanObject obj parentKey result =
  (r1 <- for_in (visitMember obj parentKey) pre result ;;
   _ <- hasOwnProperty obj key ;;
   for_in (visitMember obj parentKey) post
     (set r1 (newKey parentKey key)
        (VJson (if Number_gt0 n then JStr (moment_format n) else JNum n)))).
Proof.
  intros Hkey obj. apply includes_In in Hkey.
  unfold obj at 1. rewrite flattenAndCleanObject_member. fold obj.
  destruct (for_in (visitMember obj parentKey) pre result) as [r1|e]; [|reflexivity].
  cbn [bind]. unfold visitMember at 1.
  destruct (hasOwnProperty obj key) as [[|]|e] eqn:E; cbn [bind visit store]; try reflexivity.
  - rewrite Hkey. cbn [andb]. unfold formatTimestampField.
    destruct (Number_gt0 n); reflexivity.
  - unfold obj, hasOwnProperty in E.
    destruct (includes _ "hasOwnProperty"); discriminate.
Qed.

(** ** C6 *)

(** C6, as amended.  Every value of the record that the transform returns is
    null, a boolean, a number or a string: never an object and never an
    array. *)
Theorem C6_flatten_values_are_primitive (item : json) (r : object) :
  flatten item = Normal r ->
  forall (k : string) (v : value), In (k, v) (props r) -> primitive v = true.
Proof.
  intros H k v Hin.
  apply (flattenAndCleanObject_flat item EmptyString empty_object r flat_empty_object) in H.
  destruct H as [Hall _]. rewrite Forall_forall in Hall. exact (Hall (k, v) Hin).
Qed.

(** ** C10 *)

Lemma mapM_app {A B : Type} (f : A -> completion B) (pre post : list A) :
  mapM f (pre ++ post) =
  (rs1 <- mapM f pre ;; rs2 <- mapM f post ;; Normal (rs1 ++ rs2)%list).
Proof.
  induction pre as [|a pre IH]; simpl.
  - destruct (mapM f post); reflexivity.
  - destruct (f a) as [b|e]; simpl; [|reflexivity]. rewrite IH.
    destruct (mapM f pre); simpl; [|reflexivity].
    destruct (mapM f post); reflexivity.
Qed.

(** C10.  An element of the loaded array that is null, a boolean or a number
    goes through the transform without an exception and gives the empty
    record; the load stores that record at the position of the element and
    reports nothing. *)
Theorem C10_scalar_element_gives_empty_record (e : json) :
  null_boolean_or_number e = true ->
  flatten e = Normal empty_object /\
  forall (pre post : list json) (rows1 rows2 : list object) (c : converter),
    mapM flatten pre = Normal rows1 ->
    mapM flatten post = Normal rows2 ->
    let c' := reader_onload (Normal (JArr (pre ++ e :: post))) c in
    flattenedAndCleanedData c' = (rows1 ++ empty_object :: rows2)%list /\
    nth_error (flattenedAndCleanedData c') (List.length pre) = Some empty_object /\
    messageDiv (elements c') = messageDiv (elements c).
Proof.
  intros He.
  assert (Hflat : flatten e = Normal empty_object) by (destruct e; try discriminate; reflexivity).
  split; [exact Hflat|].
  intros pre post rows1 rows2 c H1 H2 c'.
  assert (Hlen : List.length rows1 = List.length pre).
  { clear - H1. revert rows1 H1. induction pre as [|a pre IH]; simpl; intros rows1 H1.
    - inversion H1; reflexivity.
    - destruct (flatten a); simpl in H1; [|discriminate].
      destruct (mapM flatten pre); simpl in H1; [|discriminate].
      inversion H1; simpl. f_equal. apply IH. reflexivity. }
  assert (Hmap : mapM flatten (pre ++ e :: post) = Normal (rows1 ++ empty_object :: rows2)%list).
  { rewrite mapM_app, H1. cbn [bind mapM]. rewrite Hflat, H2. reflexivity. }
  unfold c', reader_onload. rewrite Hmap.
  destruct rows1; cbn; (split; [reflexivity|]); (split; [|reflexivity]).
  - simpl in Hlen. rewrite <- Hlen. reflexivity.
  - simpl in Hlen. rewrite <- Hlen. simpl.
    rewrite nth_error_app2 by lia. rewrite Nat.sub_diag. reflexivity.
Qed.

(** ** C4: header derivation *)

Lemma In_Set_add (acc : list string) (x k : string) :
  In k (Set_add acc x) <-> In k acc \/ k = x.
Proof.
  unfold Set_add. destruct (includes acc x) eqn:E.
  - apply includes_In in E. split; [auto | intros [H| ->]; assumption].
  - rewrite in_app_iff. simpl. split; intros [H|H]; auto.
    + destruct H as [<-|[]]; auto.
Qed.

Lemma In_fold_Set_add (l acc : list string) (k : string) :
  In k (fold_left Set_add l acc) <-> In k acc \/ In k l.
Proof.
  revert acc; induction l as [|x l IH]; intros acc; simpl.
  - split; [auto | intros [H|[]]; exact H].
  - rewrite IH, In_Set_add. split; intros H; decompose [or] H; subst; auto.
Qed.

Lemma NoDup_fold_Set_add (l acc : list string) :
  NoDup acc -> NoDup (fold_left Set_add l acc).
Proof.
  revert acc; induction l as [|x l IH]; intros acc Hacc; simpl; [exact Hacc|].
  apply IH. unfold Set_add. destruct (includes acc x) eqn:E; [exact Hacc|].
  apply includes_false in E. apply NoDup_app; [exact Hacc | repeat constructor; auto |].
  intros y Hy [<-|[]]. exact (E Hy).
Qed.

(** The set only grows at its end. *)
Lemma fold_Set_add_extends (l acc : list string) :
  exists rest, fold_left Set_add l acc = (acc ++ rest)%list.
Proof.
  revert acc; induction l as [|x l IH]; intros acc; simpl.
  - exists []. rewrite app_nil_r. reflexivity.
  - destruct (IH (Set_add acc x)) as [rest ->]. unfold Set_add.
    destruct (includes acc x); [eauto|]. exists (x :: rest). rewrite <- app_assoc. reflexivity.
Qed.

Lemma first_index_In (k : string) (l : list string) :
  In k l <-> exists i, first_index k l = Some i.
Proof.
  induction l as [|x l IH]; simpl.
  - split; [intros [] | intros [i H]; discriminate].
  - destruct (String.eqb_spec k x) as [->|Hne].
    + split; eauto.
    + split.
      * intros [H|H]; [congruence|]. apply IH in H. destruct H as [i H].
        rewrite H. simpl. eauto.
      * intros [i H]. right. apply IH.
        destruct (first_index k l); [eauto | discriminate].
Qed.

Lemma first_index_bound (k : string) (l : list string) (i : nat) :
  first_index k l = Some i -> i < List.length l.
Proof.
  revert i; induction l as [|x l IH]; simpl; intros i; [discriminate|].
  destruct (String.eqb k x).
  - intros H; inversion H; lia.
  - destruct (first_index k l) as [j|]; simpl; [|discriminate].
    intros H; inversion H. specialize (IH j eq_refl). lia.
Qed.

Lemma first_index_app_l (k : string) (a b : list string) (i : nat) :
  first_index k a = Some i -> first_index k (a ++ b) = Some i.
Proof.
  revert i; induction a as [|x a IH]; simpl; intros i; [discriminate|].
  destruct (String.eqb k x); [auto|].
  destruct (first_index k a) as [j|]; simpl; [|discriminate].
  intros H. rewrite (IH j eq_refl). exact H.
Qed.

Lemma first_index_app_r (k : string) (a b : list string) :
  ~ In k a ->
  first_index k (a ++ b) = option_map (Nat.add (List.length a)) (first_index k b).
Proof.
  induction a as [|x a IH]; simpl; intros H.
  - destruct (first_index k b); reflexivity.
  - destruct (String.eqb_spec k x) as [->|Hne]; [exfalso; auto|].
    rewrite IH by auto. destruct (first_index k b); reflexivity.
Qed.

(** A list splits at the first occurrence of each of its elements. *)
Lemma first_index_split (k : string) (l : list string) (i : nat) :
  first_index k l = Some i ->
  exists pre post, l = (pre ++ k :: post)%list /\ List.length pre = i /\ ~ In k pre.
Proof.
  revert i; induction l as [|x l IH]; simpl; intros i; [discriminate|].
  destruct (String.eqb_spec k x) as [->|Hne].
  - intros H; inversion H. exists [], l. auto.
  - destruct (first_index k l) as [j|]; simpl; [|discriminate].
    intros H; inversion H; subst i.
    destruct (IH j eq_refl) as [pre [post [-> [Hlen Hnot]]]].
    exists (x :: pre), post. simpl. repeat split; [congruence|].
    intros [E|E]; [congruence | auto].
Qed.

(** A key that the scan meets for the first time is added right after the
    keys met before it. *)
Lemma Set_from_first (pre post : list string) (k : string) :
  ~ In k pre ->
  exists rest, Set_from (pre ++ k :: post) = (Set_from pre ++ k :: rest)%list.
Proof.
  intros Hnot.
  assert (Hnot' : includes (Set_from pre) k = false).
  { apply includes_false. unfold Set_from. rewrite In_fold_Set_add. intros [[]|H]. auto. }
  unfold Set_from. rewrite fold_left_app. fold (Set_from pre). cbn [fold_left].
  unfold Set_add at 2. rewrite Hnot'.
  destruct (fold_Set_add_extends post (Set_from pre ++ [k])) as [rest ->].
  exists rest. rewrite <- app_assoc. reflexivity.
Qed.

(** Two keys come out of the set in the order of their first occurrences. *)
Lemma Set_from_order (ks : list string) (k1 k2 : string) (i1 i2 : nat) :
  first_index k1 ks = Some i1 ->
  first_index k2 ks = Some i2 ->
  i1 < i2 ->
  exists j1 j2,
    first_index k1 (Set_from ks) = Some j1 /\
    first_index k2 (Set_from ks) = Some j2 /\ j1 < j2.
Proof.
  intros H1 H2 Hlt.
  destruct (first_index_split k2 ks i2 H2) as [pre [post [-> [Hlen Hnot]]]].
  assert (Hin : In k1 pre).
  { destruct (in_dec string_dec k1 pre) as [Hin|Hout]; [exact Hin|].
    rewrite (first_index_app_r k1 pre (k2 :: post) Hout) in H1.
    destruct (first_index k1 (k2 :: post)); simpl in H1; [|discriminate].
    inversion H1. lia. }
  assert (Hnot' : ~ In k2 (Set_from pre)).
  { unfold Set_from. rewrite In_fold_Set_add. intros [[]|H]. auto. }
  assert (Hin' : In k1 (Set_from pre)).
  { unfold Set_from. rewrite In_fold_Set_add. auto. }
  destruct (Set_from_first pre post k2 Hnot) as [rest ->].
  apply first_index_In in Hin'. destruct Hin' as [j1 Hj1].
  exists j1, (List.length (Set_from pre)). repeat split.
  - apply first_index_app_l. exact Hj1.
  - rewrite first_index_app_r by exact Hnot'.
    simpl. rewrite String.eqb_refl. simpl. f_equal. lia.
  - eapply first_index_bound. exact Hj1.
Qed.

(** C4.  The derived fields are the keys of the records, each once, in the
    order in which a scan of the records, and of the keys of each record in
    that record's key order, first meets them; no records give no fields,
    and [deriveFields([{a:1},{b:2}])] is [["a","b"]]. *)
Theorem C4_deriveFields_is_ordered_union :
  (forall (data : list object) (k : string),
      In k (deriveFields data) <-> exists row, In row data /\ In k (keys row)) /\
  (forall data : list object, NoDup (deriveFields data)) /\
  (forall (data : list object) (k1 k2 : string) (i1 i2 : nat),
      first_index k1 (flat_map keys data) = Some i1 ->
      first_index k2 (flat_map keys data) = Some i2 ->
      i1 < i2 ->
      exists j1 j2,
        first_index k1 (deriveFields data) = Some j1 /\
        first_index k2 (deriveFields data) = Some j2 /\ j1 < j2) /\
  deriveFields [] = [] /\
  (forall va vb : value,
      deriveFields [mkObject ObjectPrototype [("a", va)]; mkObject ObjectPrototype [("b", vb)]]
      = ["a"; "b"]).
Proof.
  repeat split.
  - unfold deriveFields, Set_from. rewrite In_fold_Set_add. intros [[]|H].
    apply in_flat_map in H. exact H.
  - intros H. unfold deriveFields, Set_from. rewrite In_fold_Set_add. right.
    apply in_flat_map. exact H.
  - intros data. apply NoDup_fold_Set_add. constructor.
  - intros data k1 k2 i1 i2. apply Set_from_order.
Qed.

(** ** C5: row projection *)

Lemma projectRow_keys (row : object) (fields : list string) (o : object) (k : string) :
  In k (keys (fold_left (fun newRow field => set newRow field (get row field)) fields o)) ->
  In k (keys o) \/ In k fields.
Proof.
  revert o; induction fields as [|f fields IH]; intros o; simpl; [auto|].
  intros H. apply IH in H. destruct H as [H|H]; [|auto].
  apply In_keys_set in H. destruct H; auto.
Qed.

Lemma projectRow_own_other (row : object) (fields : list string) (o : object) (k : string) :
  ~ In k fields ->
  own (fold_left (fun newRow field => set newRow field (get row field)) fields o) k = own o k.
Proof.
  revert o; induction fields as [|f fields IH]; intros o H; simpl; [reflexivity|].
  rewrite IH by (intros E; apply H; right; exact E).
  apply own_set_other. intros E. apply H. left. symmetry. exact E.
Qed.

Lemma projectRow_own (row : object) (fields : list string) (o : object) (f : string) :
  In f fields -> f <> "__proto__" ->
  own (fold_left (fun newRow field => set newRow field (get row field)) fields o) f
  = Some (get row f).
Proof.
  revert o; induction fields as [|g fields IH]; intros o Hin Hne; simpl; [destruct Hin|].
  destruct (in_dec string_dec f fields) as [Hlater|Hlast].
  - apply IH; assumption.
  - destruct Hin as [->|Hin]; [|contradiction].
    rewrite projectRow_own_other by exact Hlast. apply own_set_same. exact Hne.
Qed.

Lemma get_absent (row : object) (f : string) :
  own row f = None ->
  proto row = ObjectPrototype \/ proto row = NullPrototype ->
  f <> "__proto__" ->
  includes Object_prototype_members f = false ->
  get row f = VUndefined.
Proof.
  intros Hown Hproto Hne Hmember. unfold get. rewrite Hown.
  destruct Hproto as [-> | ->]; [|reflexivity].
  unfold Object_prototype_get. rewrite (proj2 (String.eqb_neq _ _) Hne), Hmember. reflexivity.
Qed.

(** The records that a load stores are flat. *)
Lemma mapM_flatten_flat (items : list json) (rows : list object) :
  mapM flatten items = Normal rows -> Forall flat rows.
Proof.
  revert rows; induction items as [|item items IH]; intros rows; cbn [mapM].
  - intros H; inversion H; constructor.
  - destruct (flatten item) as [r|e] eqn:E; cbn [bind]; [|discriminate].
    destruct (mapM flatten items) as [rs|e]; cbn [bind]; [|discriminate].
    intros H; inversion H; subst rows. constructor; [|apply IH; reflexivity].
    exact (flattenAndCleanObject_flat item EmptyString empty_object r flat_empty_object E).
Qed.

Lemma get_proto_of_flat (row : object) :
  flat row ->
  match get row "__proto__" with
  | VJson (JArr _) | VJson (JObj _) | VBuiltin _ => False
  | _ => True
  end.
Proof.
  intros [Hprops Hproto]. unfold get. destruct (own row "__proto__") as [v|] eqn:E.
  - apply assoc_In in E. rewrite Forall_forall in Hprops. specialize (Hprops _ E).
    destruct v as [| j | |]; try discriminate. destruct j; try discriminate; exact I.
  - destruct Hproto as [-> | ->]; exact I.
Qed.

(** Projecting a flat record gives a record whose prototype is
    [Object.prototype] or [null]. *)
Lemma project_proto (row : object) (fields : list string) :
  flat row ->
  proto (projectRow fields row) = ObjectPrototype \/
  proto (projectRow fields row) = NullPrototype.
Proof.
  intros Hrow. unfold projectRow.
  assert (H0 : proto empty_object = ObjectPrototype \/ proto empty_object = NullPrototype)
    by (left; reflexivity).
  revert H0. generalize empty_object.
  induction fields as [|f fields IH]; intros o Ho; cbn [fold_left]; [exact Ho|].
  apply IH. unfold set.
  destruct (String.eqb_spec f "__proto__") as [->|Hne]; cbn [andb]; [|exact Ho].
  destruct (negb (includes (keys o) "__proto__")); [|exact Ho].
  pose proof (get_proto_of_flat row Hrow) as Hget.
  destruct o as [p ps]. cbn [proto props] in *.
  destruct Ho as [-> | ->]; [|auto].
  unfold set_proto. cbn [proto props].
  destruct (get row "__proto__") as [| j | |]; cbn [is_object proto]; auto.
  - destruct j; cbn [is_object proto]; auto; contradiction.
  - contradiction.
Qed.

(** C5, as amended.  Projection keeps the number and the order of the
    records and gives a record no key outside the field list.  Every listed
    field other than [__proto__] is a key of the projected record and holds
    what reading that field from the source record gives; for a field that
    the source record lacks this is [undefined] (not null), unless the name
    is inherited from [Object.prototype]. *)
Theorem C5_project_restricts_and_keeps_absent_fields
    (data : list object) (fields : list string) :
  List.length (project data fields) = List.length data /\
  forall (i : nat) (row : object),
    nth_error data i = Some row ->
    exists newRow,
      nth_error (project data fields) i = Some newRow /\
      (forall k, In k (keys newRow) -> In k fields) /\
      (forall f, In f fields -> f <> "__proto__" ->
                 In f (keys newRow) /\ own newRow f = Some (get row f)) /\
      (forall f, In f fields -> f <> "__proto__" ->
                 own row f = None ->
                 proto row = ObjectPrototype \/ proto row = NullPrototype ->
                 includes Object_prototype_members f = false ->
                 own newRow f = Some VUndefined).
Proof.
  split; [apply length_map|].
  intros i row Hrow. exists (projectRow fields row). split; [|split; [|split]].
  - unfold project. rewrite nth_error_map, Hrow. reflexivity.
  - intros k H. apply projectRow_keys in H. destruct H as [[]|H]. exact H.
  - intros f Hin Hne.
    assert (E : own (projectRow fields row) f = Some (get row f))
      by (apply projectRow_own; assumption).
    split; [|exact E].
    destruct (in_dec string_dec f (keys (projectRow fields row))) as [H|H]; [exact H|].
    apply own_keys in H. congruence.
  - intros f Hin Hne Hown Hproto Hmember.
    unfold projectRow. rewrite projectRow_own by assumption.
    f_equal. apply get_absent; assumption.
Qed.

(** ** C8: the keys of the result and the paths of the input *)

(** The writes of the transform go to the paths of the record, each built
    by [newKey] from the keys along the path. *)
Lemma leaves_paths (obj : json) :
  forall parentKey,
    map path_of (leaves obj parentKey) =
    map (fun p => fold_left newKey p parentKey) (paths obj).
Proof.
  induction obj as [| b | n | s | items IH | members IH] using json_ind;
    intros parentKey; try reflexivity.
  cbn [leaves paths].
  induction IH as [|[key v] members Hv _ IHm]; cbn [flat_map]; [reflexivity|].
  rewrite !map_app. f_equal; [|exact IHm]. cbn [fst snd] in *.
  destruct v; try reflexivity.
  rewrite Hv, map_map. reflexivity.
Qed.

Lemma keys_writes (es : list entry) (result : object) (k : string) :
  In k (keys (fold_left write es result)) -> In k (keys result) \/ In k (map path_of es).
Proof.
  revert result; induction es as [|[[key path] v] es IH]; intros result; cbn [fold_left map].
  - auto.
  - intros H. apply IH in H. destruct H as [H|H]; [|right; right; exact H].
    cbn [write] in H. rewrite store_set in H. apply In_keys_set in H.
    destruct H as [->|H]; [right; left; reflexivity | left; exact H].
Qed.

(** Every key of the record that the transform returns for an object is
    built by [newKey] from the keys along a path of that object. *)
Lemma flatten_keys_are_newKey_paths (members : list (string * json)) (r : object) (k : string) :
  flatten (JObj members) = Normal r ->
  In k (keys r) ->
  exists p, In p (paths (JObj members)) /\ k = fold_left newKey p EmptyString.
Proof.
  unfold flatten. rewrite flattenAndCleanObject_entries.
  destruct (shadowed (JObj members)); [discriminate|]. intros H; inversion H; subst r.
  intros Hk. apply keys_writes in Hk. destruct Hk as [[]|Hk].
  rewrite <- leaves_entries, leaves_paths in Hk.
  apply in_map_iff in Hk. destruct Hk as [p [E Hp]]. eauto.
Qed.

Lemma concat_with_cons (sep a : string) (p : list string) :
  p <> [] -> concat_with sep (a :: p) = a ++ sep ++ concat_with sep p.
Proof. destruct p; [congruence | reflexivity]. Qed.

(** From a non-empty prefix on, [newKey] joins with dots. *)
Lemma fold_newKey_truthy (p : list string) :
  forall acc, truthy acc = true -> fold_left newKey p acc = concat_with "." (acc :: p).
Proof.
  induction p as [|k p IH]; intros acc Hacc; [reflexivity|].
  cbn [fold_left]. rewrite (newKey_truthy acc k Hacc).
  rewrite IH by (apply truthy_append; exact Hacc).
  destruct p as [|k' p]; [reflexivity|].
  rewrite !concat_with_cons by discriminate. rewrite !append_assoc. reflexivity.
Qed.

Lemma paths_head (members : list (string * json)) (p : list string) :
  In p (paths (JObj members)) ->
  exists key v rest, p = key :: rest /\ In (key, v) members.
Proof.
  cbn [paths]. intros H. apply in_flat_map in H. destruct H as [[key v] [Hin H]].
  exists key, v. cbn [fst snd] in H.
  destruct v; try (destruct H as [<-|[]]; eauto).
  apply in_map_iff in H. destruct H as [rest [<- _]]. eauto.
Qed.

(** When no member of the record itself has the empty key, every key of
    the result is the dot-joined key sequence of a path of the record. *)
Lemma flatten_keys_are_dotted_paths (members : list (string * json)) (r : object) (k : string) :
  (forall key v, In (key, v) members -> key <> EmptyString) ->
  flatten (JObj members) = Normal r ->
  In k (keys r) ->
  exists p, In p (paths (JObj members)) /\ k = concat_with "." p.
Proof.
  intros Hkeys Hr Hk.
  destruct (flatten_keys_are_newKey_paths members r k Hr Hk) as [p [Hp ->]].
  exists p. split; [exact Hp|].
  destruct (paths_head members p Hp) as [key [v [rest [-> Hin]]]].
  cbn [fold_left]. unfold newKey at 2. cbn [truthy].
  apply fold_newKey_truthy. specialize (Hkeys key v Hin). destruct key; [congruence | reflexivity].
Qed.

(** ** C9: the name of the spreadsheet and a click without data *)

Lemma prefix_append (p post : string) : prefix p (p ++ post) = true.
Proof.
  induction p as [|c p IH]; simpl; [destruct post; reflexivity|].
  destruct (ascii_dec c c); [exact IH | congruence].
Qed.

Lemma prefix_split (p s : string) : prefix p s = true -> exists post, s = p ++ post.
Proof.
  revert s; induction p as [|c p IH]; intros s.
  - intros _. exists s. reflexivity.
  - destruct s as [|c' s]; simpl; [discriminate|].
    destruct (ascii_dec c c') as [->|]; [|discriminate].
    intros H. destruct (IH s H) as [post ->]. exists post. reflexivity.
Qed.

(** A name that ends in [.json] and has no other [.json] in it gets the
    extension [.xlsx]. *)
Lemma exportFileName_json (base : string) :
  (forall pre post, base ++ ".json" = pre ++ ".json" ++ post -> pre = base) ->
  exportFileName (base ++ ".json") = base ++ ".xlsx".
Proof.
  unfold exportFileName. induction base as [|c base IH]; intros H; [reflexivity|].
  cbn [append replace].
  destruct (prefix ".json" (String c (base ++ ".json"))) eqn:E.
  - apply prefix_split in E. destruct E as [post E].
    specialize (H EmptyString post E). discriminate.
  - f_equal. apply IH. intros pre post E'.
    assert (E2 : String c pre = String c base).
    { apply (H (String c pre) post). cbn [append]. rewrite E'. reflexivity. }
    inversion E2. reflexivity.
Qed.

(** Without records the click writes no spreadsheet and reports so. *)
Lemma handleConvertButtonClick_no_data (c : converter) :
  flattenedAndCleanedData c = [] ->
  let c' := fst (handleConvertButtonClick c) in
  downloads c' = downloads c /\
  messageDiv (elements c') = "No data to convert. Please upload a JSON file first." /\
  snd (handleConvertButtonClick c) = Normal tt.
Proof.
  intros H. unfold handleConvertButtonClick. rewrite H. cbn. auto.
Qed.

Lemma no_file_no_data (c : converter) :
  flattenedAndCleanedData initial = [] /\
  flattenedAndCleanedData (handleJsonFileChange None c) = [].
Proof. split; reflexivity. Qed.

(** ** C7: what a load leaves in the two private fields *)

Lemma renderTable_fields (data : list object) (c : converter) :
  originalJsonData (renderTable data c) = originalJsonData c /\
  flattenedAndCleanedData (renderTable data c) = flattenedAndCleanedData c.
Proof. destruct data; split; reflexivity. Qed.

Lemma populateFieldSelection_fields (data : list object) (c : converter) :
  originalJsonData (populateFieldSelection data c) = originalJsonData c /\
  flattenedAndCleanedData (populateFieldSelection data c) = flattenedAndCleanedData c.
Proof. destruct data; split; reflexivity. Qed.

(** A text that does not parse leaves both fields as they were. *)
Lemma reader_onload_parse_error (e : exn) (c : converter) :
  originalJsonData (reader_onload (Throw e) c) = originalJsonData c /\
  flattenedAndCleanedData (reader_onload (Throw e) c) = flattenedAndCleanedData c.
Proof. split; reflexivity. Qed.

(** An array whose elements all go through the transform replaces both. *)
Lemma reader_onload_array (items : list json) (rows : list object) (c : converter) :
  mapM flatten items = Normal rows ->
  originalJsonData (reader_onload (Normal (JArr items)) c) = JArr items /\
  flattenedAndCleanedData (reader_onload (Normal (JArr items)) c) = rows.
Proof.
  intros H. unfold reader_onload. rewrite H.
  destruct rows; split; reflexivity.
Qed.

(** A value that is not an array replaces the first field only. *)
Lemma reader_onload_not_array (data : json) (c : converter) :
  (forall items, data <> JArr items) ->
  originalJsonData (reader_onload (Normal data) c) = data /\
  flattenedAndCleanedData (reader_onload (Normal data) c) = flattenedAndCleanedData c.
Proof.
  intros H. destruct data; try (split; reflexivity). exfalso. exact (H items eq_refl).
Qed.

End Properties.

(** * Further properties of the code *)

Section Coverage.

Context {host : Host}.

(** ** The transform: exceptions, lookups, key order *)

Lemma mapM_flatten_entries (items : list json) :
  mapM flatten items =
  if existsb shadowed items then Throw notAFunction
  else Normal (map (fun item => fold_left write (entries item EmptyString) empty_object) items).
Proof.
  induction items as [|item items IH]; [reflexivity|].
  cbn [mapM existsb map]. unfold flatten at 1. rewrite flattenAndCleanObject_entries.
  destruct (shadowed item); cbn [bind orb]; [reflexivity|].
  rewrite IH. destruct (existsb shadowed items); reflexivity.
Qed.

(** X1.  The transform throws, with a TypeError, exactly when the loop
    reaches an object that has a member called [hasOwnProperty]; on every
    other value it returns a record. *)
Theorem X1_flatten_throws_iff_hasOwnProperty_is_shadowed
    (item : json) (parentKey : string) (result : object) :
  (flattenAndCleanObject item parentKey result = Throw notAFunction <-> shadowed item = true) /\
  ((exists r, flattenAndCleanObject item parentKey result = Normal r) <-> shadowed item = false).
Proof.
  pose proof (flattenAndCleanObject_entries item parentKey result) as E.
  destruct (shadowed item); rewrite E.
  - split; split; intros H; try reflexivity; try discriminate H.
    destruct H as [r H]. discriminate H.
  - split; split; intros H; try reflexivity; try discriminate H.
    eexists. reflexivity.
Qed.

(** X2.  When an element of the loaded array makes the transform throw, the
    load reports the error in the message area, keeps the records of the
    previous file and stores the new array all the same. *)
Theorem X2_load_of_shadowed_element (items : list json) (c : converter) :
  existsb shadowed items = true ->
  let c' := reader_onload (Normal (JArr items)) c in
  messageDiv (elements c') = "Error reading JSON file: obj.hasOwnProperty is not a function" /\
  flattenedAndCleanedData c' = flattenedAndCleanedData c /\
  originalJsonData c' = JArr items /\
  fieldCheckboxesDiv (elements c') = fieldCheckboxesDiv (elements c) /\
  downloads c' = downloads c.
Proof.
  intros H c'. unfold c', reader_onload. rewrite mapM_flatten_entries, H.
  repeat split.
Qed.

Lemma own_writes (es : list entry) (result : object) (k : string) :
  k <> "__proto__" ->
  own (fold_left write es result) k =
  match last_write k es with
  | Some e => Some (written_value e)
  | None => own result k
  end.
Proof.
  intros Hk. revert result; induction es as [|[[key path] v] es IH]; intros result.
  - reflexivity.
  - cbn [fold_left last_write]. rewrite IH. destruct (last_write k es); [reflexivity|].
    cbn [write path_of fst snd]. rewrite store_set.
    destruct (String.eqb_spec path k) as [->|Hne].
    + rewrite own_set_same by exact Hk. reflexivity.
    + apply own_set_other. congruence.
Qed.

Lemma keys_set_mono (o : object) (k k' : string) (v : value) :
  In k' (keys o) -> In k' (keys (set o k v)).
Proof.
  intros H.
  assert (Hown : own o k' <> None) by (intros E; apply own_keys in E; contradiction).
  destruct (in_dec string_dec k' (keys (set o k v))) as [Hin|Hout]; [exact Hin|].
  exfalso. apply own_keys in Hout. revert Hout. unfold set, set_proto, own in *.
  repeat match goal with
         | |- context [if ?b then _ else _] => destruct b
         | |- context [match ?x with _ => _ end] => destruct x
         end; cbn [props]; try exact Hown;
    rewrite assoc_define; destruct (String.eqb k' k); congruence.
Qed.

Lemma keys_writes_mono (es : list entry) (result : object) (k : string) :
  In k (keys result) -> In k (keys (fold_left write es result)).
Proof.
  revert result; induction es as [|[[key path] v] es IH]; intros result H; cbn [fold_left].
  - exact H.
  - apply IH. cbn [write]. rewrite store_set. apply keys_set_mono. exact H.
Qed.

(** X3.  A call of the transform that returns never removes a key from the
    record it is given, and a key other than [__proto__] holds afterwards the
    value of the last write that went to it, or what it held before when no
    write went to it. *)
Theorem X3_flatten_last_write_wins
    (obj : json) (parentKey : string) (result r : object) :
  flattenAndCleanObject obj parentKey result = Normal r ->
  (forall k, In k (keys result) -> In k (keys r)) /\
  (forall k, k <> "__proto__" ->
     own r k = match last_write k (entries obj parentKey) with
               | Some e => Some (written_value e)
               | None => own result k
               end).
Proof.
  rewrite flattenAndCleanObject_entries. destruct (shadowed obj); [discriminate|].
  intros H; inversion H; subst r. split.
  - intros k. apply keys_writes_mono.
  - intros k. apply own_writes.
Qed.

Lemma last_write_In (k : string) (es : list entry) :
  In k (map path_of es) <-> last_write k es <> None.
Proof.
  induction es as [|e es IH]; cbn [map last_write In].
  - split; [intros [] | congruence].
  - destruct (last_write k es) as [e'|].
    + split; [congruence | intros _; right; apply IH; congruence].
    + destruct (String.eqb_spec (path_of e) k) as [E|E].
      * split; [congruence | auto].
      * split; [intros [H|H]; [contradiction | apply IH in H; congruence] | congruence].
Qed.

(** X4.  For a record whose own keys are not empty, the keys of the result
    other than [__proto__] are exactly the dot-joined key sequences of the
    paths of the record: no leaf and no array is lost, and nothing else
    appears. *)
Theorem X4_flatten_keys_are_exactly_the_paths
    (members : list (string * json)) (r : object) (k : string) :
  (forall key v, In (key, v) members -> key <> EmptyString) ->
  flatten (JObj members) = Normal r ->
  k <> "__proto__" ->
  (In k (keys r) <-> exists p, In p (paths (JObj members)) /\ k = concat_with "." p).
Proof.
  intros Hkeys Hr Hk. split.
  - intros H. exact (flatten_keys_are_dotted_paths members r k Hkeys Hr H).
  - intros [p [Hp ->]].
    assert (Hown := Hr). unfold flatten in Hown.
    rewrite flattenAndCleanObject_entries in Hown.
    destruct (shadowed (JObj members)); [discriminate|].
    inversion Hown as [Hr']; clear Hown.
    pose proof (own_writes (entries (JObj members) EmptyString) empty_object
                  (concat_with "." p) Hk) as Hown.
    rewrite Hr' in Hown.
    assert (Hin : In (concat_with "." p) (map path_of (entries (JObj members) EmptyString))).
    { rewrite <- leaves_entries, leaves_paths. apply in_map_iff. exists p. split; [|exact Hp].
      destruct (paths_head members p Hp) as [key [v [rest [-> Hin]]]].
      cbn [fold_left]. unfold newKey at 2. cbn [truthy].
      apply fold_newKey_truthy. specialize (Hkeys key v Hin).
      destruct key; [congruence | reflexivity]. }
    apply last_write_In in Hin. rewrite ?Hr'.
    destruct (in_dec string_dec (concat_with "." p) (keys r)) as [H|H]; [exact H|].
    apply own_keys in H. rewrite H in Hown.
    destruct (last_write (concat_with "." p) (entries (JObj members) EmptyString));
      [discriminate | contradiction].
Qed.

Lemma keys_update (k : string) (v : value) (ps : list (string * value)) :
  map fst (update k v ps) = map fst ps.
Proof.
  induction ps as [|[k0 v0] ps IH]; simpl; [reflexivity|].
  destruct (String.eqb k k0); simpl; [reflexivity | rewrite IH; reflexivity].
Qed.

Lemma keys_set_plain (o : object) (k : string) (v : value) :
  k <> "__proto__" -> array_index k = None -> keys (set o k v) = Set_add (keys o) k.
Proof.
  intros Hk Hindex. unfold set. rewrite (proj2 (String.eqb_neq _ _) Hk). cbn [andb].
  unfold keys, define, Set_add. cbn [props]. rewrite Hindex.
  destruct (assoc k (props o)) as [w|] eqn:E.
  - rewrite keys_update.
    assert (Hin : In k (map fst (props o))).
    { apply assoc_In in E. apply in_map_iff. exists (k, w). auto. }
    apply includes_In in Hin. rewrite Hin. reflexivity.
  - apply assoc_None in E. apply includes_false in E. rewrite E.
    rewrite map_app. reflexivity.
Qed.

(** X5.  When no write goes to a path that is an array index or
    [__proto__], the keys of the record that the transform returns come in
    the order in which the depth-first loop first writes them. *)
Theorem X5_flatten_keys_follow_the_order_of_the_writes (item : json) (r : object) :
  flatten item = Normal r ->
  Forall (fun e => array_index (path_of e) = None /\ path_of e <> "__proto__")
         (entries item EmptyString) ->
  keys r = Set_from (map path_of (entries item EmptyString)).
Proof.
  unfold flatten. rewrite flattenAndCleanObject_entries.
  destruct (shadowed item); [discriminate|]. intros H; inversion H; subst r; clear H.
  unfold Set_from. change (@nil string) with (keys empty_object).
  generalize empty_object.
  induction (entries item EmptyString) as [|[[key path] v] es IH]; intros o Hall.
  - reflexivity.
  - inversion Hall as [|e es' [Hindex Hk] Hall']; subst. cbn [path_of fst snd] in Hindex, Hk.
    cbn [fold_left map write path_of fst snd]. rewrite IH by exact Hall'.
    rewrite store_set, keys_set_plain by assumption. reflexivity.
Qed.

(** ** The table and the boxes *)

Lemma checked_all (headers : list string) :
  map fst (filter snd (map (fun header : string => (header, true)) headers)) = headers.
Proof. induction headers as [|h headers IH]; simpl; [reflexivity | rewrite IH; reflexivity]. Qed.

(** X6.  For records that are not none, [#populateFieldSelection] shows one
    box per derived field, in order, and every box is checked; for no
    records it hides the field selection and leaves the boxes alone. *)
Theorem X6_populateFieldSelection_checks_every_field (data : list object) (c : converter) :
  (data <> [] ->
   map fst (fieldCheckboxesDiv (elements (populateFieldSelection data c))) = deriveFields data /\
   checkedFields (populateFieldSelection data c) = deriveFields data /\
   fieldSelectionContainer (elements (populateFieldSelection data c)) = false) /\
  (fieldSelectionContainer (elements (populateFieldSelection [] c)) = true /\
   fieldCheckboxesDiv (elements (populateFieldSelection [] c)) = fieldCheckboxesDiv (elements c)).
Proof.
  split; [|split; reflexivity].
  intros Hdata. destruct data as [|row data]; [congruence|].
  unfold populateFieldSelection, checkedFields. cbn [elements with_elements
    set_fieldSelectionContainer set_fieldCheckboxesDiv fieldCheckboxesDiv fieldSelectionContainer].
  rewrite checked_all, map_map. cbn [fst]. rewrite map_id. auto.
Qed.

(** X7.  For records that are not none, [#renderTable] shows the derived
    fields as headers and one row of cells per record, in order; every row
    has one cell per header, the cell of a header holds what reading the
    header from the record gives, and the empty string stands in for
    [undefined].  For no records it hides the preview and leaves the old
    headers and rows in place. *)
Theorem X7_renderTable_is_rectangular (data : list object) (c : converter) :
  (data <> [] ->
   let e := elements (renderTable data c) in
   tableHeadersRow e = deriveFields data /\
   previewTableContainer e = false /\
   List.length (tableBody e) = List.length data /\
   forall (i : nat) (row : object),
     nth_error data i = Some row ->
     exists cells,
       nth_error (tableBody e) i = Some cells /\
       List.length cells = List.length (deriveFields data) /\
       ~ In VUndefined cells /\
       forall (j : nat) (header : string),
         nth_error (deriveFields data) j = Some header ->
         nth_error cells j =
         Some (match get row header with
               | VUndefined => VJson (JStr EmptyString)
               | v => v
               end)) /\
  (let e := elements (renderTable [] c) in
   previewTableContainer e = true /\
   tableHeadersRow e = tableHeadersRow (elements c) /\
   tableBody e = tableBody (elements c)).
Proof.
  split; [|repeat split].
  intros Hdata e. destruct data as [|row0 data0]; [congruence|].
  set (data := row0 :: data0) in *.
  assert (Hbody : tableBody e =
                  map (fun rowData =>
                         map (fun header => match get rowData header with
                                            | VUndefined => VJson (JStr EmptyString)
                                            | v => v
                                            end) (deriveFields data)) data) by reflexivity.
  split; [reflexivity|]. split; [reflexivity|]. split.
  - rewrite Hbody. apply length_map.
  - intros i row Hrow. rewrite Hbody, nth_error_map, Hrow. cbn [option_map].
    eexists. split; [reflexivity|]. split; [apply length_map|]. split.
    + intros Hin. apply in_map_iff in Hin. destruct Hin as [header [E _]].
      destruct (get row header); discriminate.
    + intros j header Hheader. rewrite nth_error_map, Hheader. reflexivity.
Qed.

Lemma In_deriveFields (data : list object) (k : string) :
  In k (deriveFields data) <-> exists row, In row data /\ In k (keys row).
Proof.
  unfold deriveFields, Set_from. rewrite In_fold_Set_add, in_flat_map.
  split; [intros [[]|H]; exact H | auto].
Qed.

(** The headers of projected records are the fields of the projection. *)
Lemma deriveFields_project (data : list object) (fields : list string) (h : string) :
  (In h (deriveFields (project data fields)) -> In h fields) /\
  (data <> [] -> In h fields -> h <> "__proto__" -> In h (deriveFields (project data fields))).
Proof.
  split.
  - intros H. apply In_deriveFields in H. destruct H as [newRow [Hrow Hk]].
    unfold project in Hrow. apply in_map_iff in Hrow. destruct Hrow as [row [<- _]].
    apply projectRow_keys in Hk. destruct Hk as [[]|Hk]. exact Hk.
  - intros Hdata Hin Hne. destruct data as [|row data]; [congruence|].
    apply In_deriveFields. exists (projectRow fields row). split; [left; reflexivity|].
    destruct (in_dec string_dec h (keys (projectRow fields row))) as [H|H]; [exact H|].
    apply own_keys in H. unfold projectRow in H.
    rewrite projectRow_own in H by assumption. discriminate.
Qed.

Lemma renderTable_frame (data : list object) (c : converter) :
  let c' := renderTable data c in
  originalJsonData c' = originalJsonData c /\
  flattenedAndCleanedData c' = flattenedAndCleanedData c /\
  downloads c' = downloads c /\
  jsonFileInput (elements c') = jsonFileInput (elements c) /\
  messageDiv (elements c') = messageDiv (elements c) /\
  selectedFileNameDiv (elements c') = selectedFileNameDiv (elements c) /\
  fieldSelectionContainer (elements c') = fieldSelectionContainer (elements c) /\
  fieldCheckboxesDiv (elements c') = fieldCheckboxesDiv (elements c).
Proof. destruct data; repeat split. Qed.


Lemma renderTable_rows (data : list object) (c : converter) :
  data <> [] ->
  tableHeadersRow (elements (renderTable data c)) = deriveFields data /\
  previewTableContainer (elements (renderTable data c)) = false /\
  List.length (tableBody (elements (renderTable data c))) = List.length data.
Proof.
  intros Hdata. destruct data as [|row data]; [congruence|].
  repeat split. cbn. rewrite length_map. reflexivity.
Qed.

(** X8.  After a box is toggled the preview shows the checked fields and
    only them (a field called [__proto__] apart), with one row per record;
    the records, the chosen file and the values of the boxes stay as they
    were, and only the box of the toggled header changes its mark. *)
Theorem X8_toggle_shows_the_checked_fields (header : string) (c : converter) :
  flattenedAndCleanedData c <> [] ->
  let c' := changeHandler header c in
  flattenedAndCleanedData c' = flattenedAndCleanedData c /\
  jsonFileInput (elements c') = jsonFileInput (elements c) /\
  fieldCheckboxesDiv (elements c') =
    map (fun box => if String.eqb (fst box) header then (fst box, negb (snd box)) else box)
        (fieldCheckboxesDiv (elements c)) /\
  previewTableContainer (elements c') = false /\
  List.length (tableBody (elements c')) = List.length (flattenedAndCleanedData c) /\
  (forall h, In h (tableHeadersRow (elements c')) -> In h (checkedFields c')) /\
  (forall h, In h (checkedFields c') -> h <> "__proto__" ->
             In h (tableHeadersRow (elements c'))).
Proof.
  intros Hdata c'. unfold c', changeHandler.
  set (c1 := with_elements _ c).
  set (filtered := project (flattenedAndCleanedData c1) (checkedFields c1)).
  destruct (renderTable_frame filtered c1) as [_ [Hflat [_ [Hfile [_ [_ [_ Hboxes]]]]]]].
  cbv zeta in Hflat, Hfile, Hboxes.
  assert (Hchecked : checkedFields (renderTable filtered c1) = checkedFields c1)
    by (unfold checkedFields; rewrite Hboxes; reflexivity).
  assert (Hne : filtered <> []).
  { unfold filtered, project, c1. cbn [flattenedAndCleanedData with_elements].
    destruct (flattenedAndCleanedData c); [congruence | discriminate]. }
  destruct (renderTable_rows filtered c1 Hne) as [Hheaders [Hshown Hlen]].
  repeat split.
  - exact Hflat.
  - exact Hfile.
  - exact Hboxes.
  - exact Hshown.
  - rewrite Hlen. unfold filtered, project. rewrite length_map. reflexivity.
  - intros h. rewrite Hheaders, Hchecked. apply deriveFields_project.
  - intros h. rewrite Hheaders, Hchecked. apply deriveFields_project.
    unfold c1. cbn [flattenedAndCleanedData with_elements]. exact Hdata.
Qed.

(** ** The convert button *)

Lemma click_frame (c : converter) :
  let c' := fst (handleConvertButtonClick c) in
  originalJsonData c' = originalJsonData c /\
  flattenedAndCleanedData c' = flattenedAndCleanedData c /\
  jsonFileInput (elements c') = jsonFileInput (elements c) /\
  fieldCheckboxesDiv (elements c') = fieldCheckboxesDiv (elements c) /\
  tableHeadersRow (elements c') = tableHeadersRow (elements c) /\
  tableBody (elements c') = tableBody (elements c).
Proof.
  unfold handleConvertButtonClick.
  destruct (flattenedAndCleanedData c) eqn:Hdata; [repeat split; auto|].
  cbv zeta.
  destruct (checkedFields (with_elements (set_messageDiv EmptyString) c));
    [cbn; rewrite Hdata; repeat split|].
  cbn [jsonFileInput elements with_elements set_messageDiv].
  destruct (jsonFileInput (elements c)) eqn:Hfile; cbn; rewrite Hdata; repeat split;
    exact Hfile.
Qed.

Lemma click_writes (c : converter) (inputName : string) :
  flattenedAndCleanedData c <> [] ->
  checkedFields c <> [] ->
  jsonFileInput (elements c) = Some inputName ->
  handleConvertButtonClick c =
  (with_elements
     (set_messageDiv ("Conversion successful! Downloading " ++ exportFileName inputName))
     (with_download (exportFileName inputName)
        (project (flattenedAndCleanedData c) (checkedFields c))
        (with_elements (set_messageDiv EmptyString) c)),
   Normal tt).
Proof.
  intros Hdata Hchecked Hfile. unfold handleConvertButtonClick.
  destruct (flattenedAndCleanedData c) eqn:E; [congruence|]. cbv zeta.
  change (checkedFields (with_elements (set_messageDiv EmptyString) c)) with (checkedFields c).
  destruct (checkedFields c) eqn:E'; [congruence|].
  cbn [jsonFileInput elements with_elements set_messageDiv]. rewrite Hfile.
  cbn [flattenedAndCleanedData with_elements]. rewrite E. reflexivity.
Qed.

Lemma click_without_boxes (c : converter) :
  checkedFields c = [] ->
  downloads (fst (handleConvertButtonClick c)) = downloads c /\
  snd (handleConvertButtonClick c) = Normal tt.
Proof.
  intros Hchecked. unfold handleConvertButtonClick.
  destruct (flattenedAndCleanedData c); [split; reflexivity|]. cbv zeta.
  change (checkedFields (with_elements (set_messageDiv EmptyString) c)) with (checkedFields c).
  rewrite Hchecked. split; reflexivity.
Qed.

(** X9.  A click on the convert button never changes the records, the
    chosen file, the boxes or the table, and it adds at most one spreadsheet
    to those written.  With records but no checked box it writes nothing and
    asks for a field; with records, a checked box and a chosen file it writes
    one spreadsheet that has one row per record and no column outside the
    checked fields. *)
Theorem X9_click_outcomes (c : converter) :
  let c' := fst (handleConvertButtonClick c) in
  (originalJsonData c' = originalJsonData c /\
   flattenedAndCleanedData c' = flattenedAndCleanedData c /\
   jsonFileInput (elements c') = jsonFileInput (elements c) /\
   fieldCheckboxesDiv (elements c') = fieldCheckboxesDiv (elements c) /\
   tableHeadersRow (elements c') = tableHeadersRow (elements c) /\
   tableBody (elements c') = tableBody (elements c)) /\
  (downloads c' = downloads c \/ exists download, downloads c' = (downloads c ++ [download])%list) /\
  (flattenedAndCleanedData c <> [] -> checkedFields c = [] ->
   downloads c' = downloads c /\
   messageDiv (elements c') = "Please select at least one field to export." /\
   snd (handleConvertButtonClick c) = Normal tt) /\
  (forall inputName,
     flattenedAndCleanedData c <> [] -> checkedFields c <> [] ->
     jsonFileInput (elements c) = Some inputName ->
     exists sheet,
       downloads c' = (downloads c ++ [(exportFileName inputName, sheet)])%list /\
       List.length sheet = List.length (flattenedAndCleanedData c) /\
       (forall row k, In row sheet -> In k (keys row) -> In k (checkedFields c)) /\
       messageDiv (elements c') =
         "Conversion successful! Downloading " ++ exportFileName inputName /\
       snd (handleConvertButtonClick c) = Normal tt).
Proof.
  intros c'. split; [apply click_frame|]. split; [|split].
  - unfold c', handleConvertButtonClick.
    destruct (flattenedAndCleanedData c); [left; reflexivity|]. cbv zeta.
    destruct (checkedFields _); [left; reflexivity|].
    cbn [jsonFileInput elements with_elements set_messageDiv].
    destruct (jsonFileInput (elements c)); [right; eexists; reflexivity | left; reflexivity].
  - intros Hdata Hchecked. unfold c', handleConvertButtonClick.
    destruct (flattenedAndCleanedData c); [congruence|]. cbv zeta.
    change (checkedFields (with_elements (set_messageDiv EmptyString) c)) with (checkedFields c).
    rewrite Hchecked. repeat split.
  - intros inputName Hdata Hchecked Hfile. unfold c'.
    rewrite (click_writes c inputName Hdata Hchecked Hfile).
    exists (project (flattenedAndCleanedData c) (checkedFields c)).
    split; [reflexivity|]. split; [apply length_map|]. split; [|split; reflexivity].
    intros row k Hrow Hk. unfold project in Hrow. apply in_map_iff in Hrow.
    destruct Hrow as [row0 [<- _]]. apply projectRow_keys in Hk.
    destruct Hk as [[]|Hk]. exact Hk.
Qed.

(** ** Loading a file *)

Lemma change_frame (f : File) (c : converter) :
  let c' := handleJsonFileChange (Some f) c in
  originalJsonData c' = originalJsonData c /\
  flattenedAndCleanedData c' = flattenedAndCleanedData c /\
  downloads c' = downloads c /\
  elements c' =
    mkElements (Some (name f)) EmptyString (name f) true [] [] true [].
Proof. repeat split. Qed.

(** X10.  A load that does not give records (the text does not parse, the
    value is not an array, or an element makes the transform throw) reports
    an error, leaves the page with no box, no table and both areas hidden,
    keeps the records of the previous load, and a click on the convert button
    after it writes nothing. *)
Theorem X10_failed_load_cannot_be_exported (f : File) (c : converter) :
  (forall rows, ~ loads_as f rows) ->
  let c' := load f c in
  messageDiv (elements c') <> EmptyString /\
  fieldCheckboxesDiv (elements c') = [] /\
  tableHeadersRow (elements c') = [] /\
  tableBody (elements c') = [] /\
  previewTableContainer (elements c') = true /\
  fieldSelectionContainer (elements c') = true /\
  flattenedAndCleanedData c' = flattenedAndCleanedData c /\
  downloads (fst (handleConvertButtonClick c')) = downloads c /\
  snd (handleConvertButtonClick c') = Normal tt.
Proof.
  intros Hfail c'.
  assert (H : messageDiv (elements c') <> EmptyString /\
              flattenedAndCleanedData c' = flattenedAndCleanedData c /\
              downloads c' = downloads c /\
              exists m, elements c' = mkElements (Some (name f)) m (name f) true [] [] true []).
  { unfold c', load, reader_onload.
    destruct (parsed f) as [data|e] eqn:Hparsed.
    - destruct data;
        try (split; [discriminate | split; [reflexivity | split; [reflexivity|]]];
             eexists; reflexivity).
      destruct (mapM flatten items) as [rows|e] eqn:Hrows.
      + exfalso. apply (Hfail rows). exists items. auto.
      + split; [discriminate | split; [reflexivity | split; [reflexivity|]]].
        eexists; reflexivity.
    - split; [discriminate | split; [reflexivity | split; [reflexivity|]]].
      eexists; reflexivity. }
  destruct H as [Hmessage [Hflat [Hdown [m He]]]].
  assert (Hchecked : checkedFields c' = []) by (unfold checkedFields; rewrite He; reflexivity).
  destruct (click_without_boxes c' Hchecked) as [Hd Hs].
  rewrite He in *. cbn. repeat split; try assumption; congruence.
Qed.

Lemma load_success (f : File) (rows : list object) (c : converter) :
  loads_as f rows ->
  rows <> [] ->
  let c' := load f c in
  flattenedAndCleanedData c' = rows /\
  jsonFileInput (elements c') = Some (name f) /\
  selectedFileNameDiv (elements c') = name f /\
  messageDiv (elements c') = EmptyString /\
  fieldCheckboxesDiv (elements c') = map (fun header => (header, true)) (deriveFields rows) /\
  checkedFields c' = deriveFields rows /\
  tableHeadersRow (elements c') = deriveFields rows /\
  List.length (tableBody (elements c')) = List.length rows /\
  previewTableContainer (elements c') = false /\
  fieldSelectionContainer (elements c') = false /\
  downloads c' = downloads c.
Proof.
  intros [items [Hparsed Hrows]] Hne c'. unfold c', load, reader_onload.
  rewrite Hparsed. cbn [originalJsonData with_originalJsonData handleJsonFileChange].
  rewrite Hrows. destruct rows as [|row rows]; [congruence|].
  unfold checkedFields. cbn. rewrite checked_all, length_map. repeat split.
Qed.

(** X11.  A load that gives at least one record stores the records, shows
    the name of the file, clears the message, shows one checked box per
    derived field and a table with the derived fields as headers and one row
    per record, and writes nothing. *)
Theorem X11_successful_load (f : File) (rows : list object) (c : converter) :
  loads_as f rows ->
  rows <> [] ->
  let c' := load f c in
  flattenedAndCleanedData c' = rows /\
  jsonFileInput (elements c') = Some (name f) /\
  selectedFileNameDiv (elements c') = name f /\
  messageDiv (elements c') = EmptyString /\
  fieldCheckboxesDiv (elements c') = map (fun header => (header, true)) (deriveFields rows) /\
  checkedFields c' = deriveFields rows /\
  tableHeadersRow (elements c') = deriveFields rows /\
  List.length (tableBody (elements c')) = List.length rows /\
  previewTableContainer (elements c') = false /\
  fieldSelectionContainer (elements c') = false /\
  downloads c' = downloads c.
Proof. exact (load_success f rows c). Qed.

(** X12.  A load of the empty array reports nothing and leaves the page
    cleared: no records, no box, no table, both areas hidden; a click on the
    convert button then says that there is no data and writes nothing. *)
Theorem X12_load_of_the_empty_array (f : File) (c : converter) :
  parsed f = Normal (JArr []) ->
  let c' := load f c in
  flattenedAndCleanedData c' = [] /\
  messageDiv (elements c') = EmptyString /\
  fieldCheckboxesDiv (elements c') = [] /\
  tableHeadersRow (elements c') = [] /\
  previewTableContainer (elements c') = true /\
  fieldSelectionContainer (elements c') = true /\
  downloads (fst (handleConvertButtonClick c')) = downloads c /\
  messageDiv (elements (fst (handleConvertButtonClick c'))) =
    "No data to convert. Please upload a JSON file first.".
Proof.
  intros Hparsed c'. unfold c', load, reader_onload. rewrite Hparsed. repeat split.
Qed.

(** ** Sequences of events *)

Lemma changeHandler_frame (header : string) (c : converter) :
  let c' := changeHandler header c in
  originalJsonData c' = originalJsonData c /\
  flattenedAndCleanedData c' = flattenedAndCleanedData c /\
  downloads c' = downloads c /\
  jsonFileInput (elements c') = jsonFileInput (elements c) /\
  fieldCheckboxesDiv (elements c') =
    map (fun box => if String.eqb (fst box) header then (fst box, negb (snd box)) else box)
        (fieldCheckboxesDiv (elements c)).
Proof.
  unfold changeHandler. set (c1 := with_elements _ c).
  destruct (renderTable_frame
              (project (flattenedAndCleanedData c1) (checkedFields c1)) c1)
    as [H1 [H2 [H3 [H4 [_ [_ [_ H5]]]]]]].
  cbv zeta in *. repeat split; assumption.
Qed.

Lemma checked_after_flip (header : string) (fields : list string) :
  map fst
    (filter snd
       (map (fun box : string * bool =>
               if String.eqb (fst box) header then (fst box, negb (snd box)) else box)
            (map (fun h : string => (h, true)) fields))) =
  filter (fun k => negb (String.eqb k header)) fields.
Proof.
  induction fields as [|k fields IH]; [reflexivity|].
  cbn [map filter fst snd]. destruct (String.eqb k header); cbn [negb snd fst filter map];
    rewrite IH; reflexivity.
Qed.

(** X13.  Loading a file that gives records, unchecking the box of one of
    their fields and clicking the convert button writes one spreadsheet: it
    is named after the file, and it holds the records, in order, projected on
    the other fields, so that no row has the unchecked field as a key. *)
Theorem X13_load_uncheck_export
    (f : File) (rows : list object) (header : string) (c : converter) :
  loads_as f rows ->
  rows <> [] ->
  In header (deriveFields rows) ->
  filter (fun k => negb (String.eqb k header)) (deriveFields rows) <> [] ->
  let remaining := filter (fun k => negb (String.eqb k header)) (deriveFields rows) in
  let c' := run [FileChosen f; BoxToggled header; ConvertClicked] c in
  downloads c' = (downloads c ++ [(exportFileName (name f), project rows remaining)])%list /\
  List.length (project rows remaining) = List.length rows /\
  (forall row, In row (project rows remaining) -> ~ In header (keys row)) /\
  messageDiv (elements c') = "Conversion successful! Downloading " ++ exportFileName (name f).
Proof.
  intros Hloads Hrows Hheader Hremaining remaining c'.
  destruct (load_success f rows c Hloads Hrows)
    as [Hflat [Hfile [_ [_ [Hboxes [_ [_ [_ [_ [_ Hdown]]]]]]]]]].
  cbv zeta in *.
  unfold c', run. cbn [fold_left step]. rewrite Hboxes, map_map. cbn [fst]. rewrite map_id.
  rewrite (proj2 (includes_In _ _) Hheader).
  destruct (changeHandler_frame header (load f c)) as [_ [Hflat2 [Hdown2 [Hfile2 Hboxes2]]]].
  cbv zeta in *.
  assert (Hchecked : checkedFields (changeHandler header (load f c)) = remaining).
  { unfold checkedFields. rewrite Hboxes2, Hboxes. apply checked_after_flip. }
  rewrite (click_writes (changeHandler header (load f c)) (name f)).
  - cbn [fst downloads with_elements with_download messageDiv elements set_messageDiv].
    rewrite Hdown2, Hdown, Hflat2, Hflat, Hchecked.
    repeat split.
    + apply length_map.
    + intros row Hrow Hin. unfold project in Hrow. apply in_map_iff in Hrow.
      destruct Hrow as [row0 [<- _]]. apply projectRow_keys in Hin.
      destruct Hin as [[]|Hin]. unfold remaining in Hin. apply filter_In in Hin.
      destruct Hin as [_ Hin]. rewrite String.eqb_refl in Hin. discriminate.
  - rewrite Hflat2, Hflat. exact Hrows.
  - rewrite Hchecked. exact Hremaining.
  - rewrite Hfile2. exact Hfile.
Qed.

Lemma load_downloads (f : File) (c : converter) : downloads (load f c) = downloads c.
Proof.
  unfold load, reader_onload. destruct (parsed f) as [data|e]; [|reflexivity].
  destruct data; try reflexivity.
  cbn [originalJsonData with_originalJsonData handleJsonFileChange].
  destruct (mapM flatten items) as [rows|e]; [|reflexivity].
  destruct rows; reflexivity.
Qed.

Lemma load_boxes (f : File) (c : converter) :
  fieldCheckboxesDiv (elements (load f c)) = [] \/
  (jsonFileInput (elements (load f c)) = Some (name f) /\
   loads_as f (flattenedAndCleanedData (load f c)) /\
   map fst (fieldCheckboxesDiv (elements (load f c))) =
   deriveFields (flattenedAndCleanedData (load f c))).
Proof.
  destruct (parsed f) as [data|e] eqn:Hparsed.
  - destruct data; try (left; unfold load, reader_onload; rewrite Hparsed; reflexivity).
    destruct (mapM flatten items) as [rows|e] eqn:Hrows.
    + destruct rows as [|row rows].
      * left. unfold load, reader_onload. rewrite Hparsed.
        cbn [originalJsonData with_originalJsonData handleJsonFileChange].
        rewrite Hrows. reflexivity.
      * right.
        assert (Hloads : loads_as f (row :: rows)) by (exists items; auto).
        destruct (load_success f (row :: rows) c Hloads ltac:(discriminate))
          as [Hflat [Hfile [_ [_ [Hboxes _]]]]].
        cbv zeta in *. rewrite Hflat, Hfile, Hboxes, map_map. cbn [fst]. rewrite map_id. auto.
    + left. unfold load, reader_onload. rewrite Hparsed.
      cbn [originalJsonData with_originalJsonData handleJsonFileChange].
      rewrite Hrows. reflexivity.
  - left. unfold load, reader_onload. rewrite Hparsed. reflexivity.
Qed.

Lemma click_cases (c : converter) :
  (downloads (fst (handleConvertButtonClick c)) = downloads c /\
   (checkedFields c = [] \/ flattenedAndCleanedData c = [] \/ jsonFileInput (elements c) = None))
  \/
  (exists inputName,
     jsonFileInput (elements c) = Some inputName /\
     flattenedAndCleanedData c <> [] /\
     checkedFields c <> [] /\
     downloads (fst (handleConvertButtonClick c)) =
       (downloads c ++ [(exportFileName inputName,
                         project (flattenedAndCleanedData c) (checkedFields c))])%list).
Proof.
  destruct (flattenedAndCleanedData c) as [|row rows] eqn:Hdata.
  - left. unfold handleConvertButtonClick. rewrite Hdata. auto.
  - destruct (checkedFields c) as [|k ks] eqn:Hchecked.
    + left. split; [|auto]. apply click_without_boxes. exact Hchecked.
    + destruct (jsonFileInput (elements c)) as [inputName|] eqn:Hfile.
      * right. exists inputName.
        rewrite (click_writes c inputName); rewrite ?Hdata, ?Hchecked; try discriminate;
          try exact Hfile.
        repeat split; discriminate.
      * left. split; [|auto]. unfold handleConvertButtonClick. rewrite Hdata. cbv zeta.
        change (checkedFields (with_elements (set_messageDiv EmptyString) c))
          with (checkedFields c).
        rewrite Hchecked. cbn [jsonFileInput elements with_elements set_messageDiv].
        rewrite Hfile. reflexivity.
Qed.

Lemma boxes_match_file_mono (loaded loaded' : list File) (c : converter) :
  incl loaded loaded' -> boxes_match_file loaded c -> boxes_match_file loaded' c.
Proof.
  intros Hincl [H|[f [Hin H]]]; [left; exact H | right; exists f; auto].
Qed.

Lemma written_from_mono (loaded loaded' : list File) (d : string * list object) :
  incl loaded loaded' -> written_from loaded d -> written_from loaded' d.
Proof.
  intros Hincl [f [rows [fields [Hin H]]]]. exists f, rows, fields. auto.
Qed.

Lemma chosen_app (evs evs' : list event) :
  chosen (evs ++ evs') = (chosen evs ++ chosen evs')%list.
Proof.
  induction evs as [|ev evs IH]; [reflexivity|].
  destruct ev; cbn [chosen app]; rewrite IH; reflexivity.
Qed.

(** One event keeps the boxes in step with the chosen file and the
    spreadsheets tied to the files they were written from. *)
Lemma step_invariant (loaded : list File) (c : converter) (ev : event) :
  boxes_match_file loaded c ->
  Forall (written_from loaded) (downloads c) ->
  boxes_match_file (loaded ++ chosen [ev]) (step c ev) /\
  Forall (written_from (loaded ++ chosen [ev])) (downloads (step c ev)).
Proof.
  intros Hboxes Hdown.
  assert (Hincl : incl loaded (loaded ++ chosen [ev])) by (apply incl_appl, incl_refl).
  assert (Hdown' : Forall (written_from (loaded ++ chosen [ev])) (downloads c)).
  { eapply Forall_impl; [|exact Hdown]. intros d. apply written_from_mono. exact Hincl. }
  apply (boxes_match_file_mono _ _ _ Hincl) in Hboxes.
  destruct ev as [f| |header|]; cbn [step].
  - split; [|rewrite load_downloads; exact Hdown'].
    destruct (load_boxes f c) as [H|[Hfile [Hloads Hfields]]]; [left; exact H|].
    right. exists f. repeat split; try assumption.
    apply in_or_app. right. left. reflexivity.
  - split; [left; reflexivity | exact Hdown'].
  - destruct (includes (map fst (fieldCheckboxesDiv (elements c))) header);
      [|split; assumption].
    destruct (changeHandler_frame header c) as [_ [Hflat [Hd [Hfile Hb]]]]. cbv zeta in *.
    split; [|rewrite Hd; exact Hdown'].
    destruct Hboxes as [H|[f [Hin [Hf [Hloads Hfields]]]]].
    + left. rewrite Hb, H. reflexivity.
    + right. exists f. rewrite Hflat, Hfile, Hb, map_map. repeat split; try assumption.
      rewrite <- Hfields. apply map_ext. intros [k b]. cbn [fst].
      destruct (String.eqb k header); reflexivity.
  - destruct (click_frame c) as [_ [Hflat [Hfile [Hb _]]]]. cbv zeta in *. split.
    + destruct Hboxes as [H|[f [Hin [Hf [Hloads Hfields]]]]].
      * left. rewrite Hb. exact H.
      * right. exists f. rewrite Hflat, Hfile, Hb. auto.
    + destruct (click_cases c) as [[-> _]|[inputName [Hf [Hdata [Hchecked ->]]]]];
        [exact Hdown'|].
      apply Forall_app. split; [exact Hdown'|]. constructor; [|constructor].
      destruct Hboxes as [H|[f [Hin [Hf' [Hloads Hfields]]]]].
      * exfalso. apply Hchecked. unfold checkedFields. rewrite H. reflexivity.
      * exists f, (flattenedAndCleanedData c), (checkedFields c).
        repeat split; try assumption.
        -- intros k Hk. rewrite <- Hfields. unfold checkedFields in Hk.
           apply in_map_iff in Hk. destruct Hk as [box [<- Hbox]].
           apply filter_In in Hbox. apply in_map. apply Hbox.
        -- congruence.
Qed.

Lemma run_invariant (evs : list event) :
  boxes_match_file (chosen evs) (run evs initial) /\
  Forall (written_from (chosen evs)) (downloads (run evs initial)).
Proof.
  induction evs as [|ev evs IH] using rev_ind.
  - split; [left; reflexivity | constructor].
  - unfold run. rewrite fold_left_app, chosen_app. cbn [fold_left].
    destruct IH as [Hboxes Hdown]. apply step_invariant; assumption.
Qed.

(** X14.  Whatever the user does from the fresh page, as long as each
    chosen file is read to its end before the next event: every spreadsheet
    written is named after a file that was chosen and holds the records of
    that very file projected on a non-empty list of their fields; the boxes
    on the page, if any, are those of the records of the file now chosen; and
    the click handler does not throw. *)
Theorem X14_every_spreadsheet_comes_from_its_file (evs : list event) :
  let c := run evs initial in
  Forall (written_from (chosen evs)) (downloads c) /\
  boxes_match_file (chosen evs) c /\
  snd (handleConvertButtonClick c) = Normal tt.
Proof.
  intros c. destruct (run_invariant evs) as [Hboxes Hdown]. fold c in Hboxes, Hdown.
  split; [exact Hdown|]. split; [exact Hboxes|].
  unfold handleConvertButtonClick.
  destruct (flattenedAndCleanedData c); [reflexivity|]. cbv zeta.
  change (checkedFields (with_elements (set_messageDiv EmptyString) c)) with (checkedFields c).
  destruct (checkedFields c) eqn:Hchecked; [reflexivity|].
  cbn [jsonFileInput elements with_elements set_messageDiv].
  destruct Hboxes as [H|[f [_ [Hfile _]]]].
  - unfold checkedFields in Hchecked. rewrite H in Hchecked. discriminate.
  - rewrite Hfile. reflexivity.
Qed.

(** ** The name of the spreadsheet *)

Lemma drop_append (p post : string) : drop (String.length p) (p ++ post) = post.
Proof. induction p as [|c p IH]; [reflexivity | exact IH]. Qed.

Lemma replace_unfold (pattern replacement s : string) :
  replace pattern replacement s =
  if prefix pattern s then replacement ++ drop (String.length pattern) s
  else match s with
       | EmptyString => EmptyString
       | String c s' => String c (replace pattern replacement s')
       end.
Proof. destruct s; reflexivity. Qed.

(** X15.  The name of the spreadsheet is as long as the name of the file.
    A name without [.json] in it is kept as it is; in a name with [.json] in
    it the first occurrence, and only it, becomes [.xlsx]. *)
Theorem X15_exportFileName_replaces_the_first_occurrence :
  (forall inputName, String.length (exportFileName inputName) = String.length inputName) /\
  (forall inputName,
      (forall pre post, inputName <> pre ++ ".json" ++ post) ->
      exportFileName inputName = inputName) /\
  (forall pre post,
      (forall pre' post',
          pre ++ ".json" ++ post = pre' ++ ".json" ++ post' ->
          String.length pre <= String.length pre') ->
      exportFileName (pre ++ ".json" ++ post) = pre ++ ".xlsx" ++ post).
Proof.
  unfold exportFileName. split; [|split].
  - induction inputName as [|c s IH].
    + reflexivity.
    + cbn [replace]. destruct (prefix ".json" (String c s)) eqn:E.
      * apply prefix_split in E. destruct E as [post ->].
        rewrite drop_append, !length_append. reflexivity.
      * cbn [String.length]. rewrite IH. reflexivity.
  - induction inputName as [|c s IH]; intros H.
    + reflexivity.
    + cbn [replace]. destruct (prefix ".json" (String c s)) eqn:E.
      * apply prefix_split in E. destruct E as [post E].
        exfalso. exact (H EmptyString post E).
      * f_equal. apply IH. intros pre post E'. apply (H (String c pre) post).
        cbn [append]. rewrite E'. reflexivity.
  - induction pre as [|c pre IH]; intros post H.
    + change (EmptyString ++ ".json" ++ post) with (".json" ++ post).
      rewrite replace_unfold, (prefix_append ".json" post).
      rewrite (drop_append ".json" post). reflexivity.
    + change (String c pre ++ ".json" ++ post) with (String c (pre ++ ".json" ++ post)).
      change (String c pre ++ ".xlsx" ++ post) with (String c (pre ++ ".xlsx" ++ post)).
      rewrite replace_unfold.
      destruct (prefix ".json" (String c (pre ++ ".json" ++ post))) eqn:E.
      * apply prefix_split in E. destruct E as [post' E].
        specialize (H EmptyString post' E). cbn [String.length] in H. lia.
      * f_equal. apply IH. intros pre' post' E'.
        assert (E2 : String c pre ++ ".json" ++ post = String c pre' ++ ".json" ++ post').
        { change (String c (pre ++ ".json" ++ post) = String c (pre' ++ ".json" ++ post')).
          rewrite E'. reflexivity. }
        specialize (H (String c pre') post' E2). cbn [String.length] in H. lia.
Qed.

(** ** Projection twice *)

Lemma fold_set_ext (g1 g2 : string -> value) (fields : list string) (o : object) :
  (forall f, In f fields -> g1 f = g2 f) ->
  fold_left (fun newRow field => set newRow field (g1 field)) fields o =
  fold_left (fun newRow field => set newRow field (g2 field)) fields o.
Proof.
  revert o; induction fields as [|f fields IH]; intros o H; cbn [fold_left]; [reflexivity|].
  rewrite (H f) by (left; reflexivity). apply IH. intros g Hg. apply H. right. exact Hg.
Qed.

(** X16.  Projecting twice on the same fields gives what projecting once
    gives, when no field is called [__proto__]. *)
Theorem X16_project_is_idempotent (data : list object) (fields : list string) :
  ~ In "__proto__" fields ->
  project (project data fields) fields = project data fields.
Proof.
  intros Hproto. unfold project. rewrite map_map. apply map_ext. intros row.
  unfold projectRow at 1. apply fold_set_ext. intros f Hf.
  assert (Hne : f <> "__proto__") by congruence.
  unfold get at 1. unfold projectRow. rewrite projectRow_own by assumption. reflexivity.
Qed.

(** ** An element of the loaded array that is a string *)

Lemma string_of_nat_injective (i j : nat) : string_of_nat i = string_of_nat j -> i = j.
Proof.
  unfold string_of_nat. intros E.
  apply (f_equal NilEmpty.uint_of_string) in E. rewrite !NilEmpty.usu in E.
  inversion E as [E']. apply (f_equal Nat.of_uint) in E'.
  rewrite !Unsigned.of_to in E'. exact E'.
Qed.

Lemma string_of_nat_not_proto (i : nat) : string_of_nat i <> "__proto__".
Proof.
  unfold string_of_nat. intros E.
  apply (f_equal NilEmpty.uint_of_string) in E. rewrite NilEmpty.usu in E. discriminate E.
Qed.

Lemma entries_JStr (s : string) :
  entries (JStr s) EmptyString =
  map (fun kv => (fst kv, fst kv, snd kv)) (indexed 0 (code_units s)).
Proof.
  unfold entries. cbn [own_enumerable]. generalize 0.
  induction s as [|c s IH]; intros i; [reflexivity|].
  cbn [code_units indexed flat_map map]. rewrite IH. reflexivity.
Qed.

Lemma last_write_indexed_before (s : string) :
  forall i0 j, j < i0 ->
    last_write (string_of_nat j)
      (map (fun kv : string * json => (fst kv, fst kv, snd kv)) (indexed i0 (code_units s)))
    = None.
Proof.
  induction s as [|c s IH]; intros i0 j Hlt; [reflexivity|].
  cbn [code_units indexed map last_write path_of fst snd].
  rewrite IH by lia.
  destruct (String.eqb_spec (string_of_nat i0) (string_of_nat j)) as [E|E]; [|reflexivity].
  apply string_of_nat_injective in E. lia.
Qed.

Lemma last_write_indexed (s : string) :
  forall i0 i c, String.get i s = Some c ->
    last_write (string_of_nat (i0 + i))
      (map (fun kv : string * json => (fst kv, fst kv, snd kv)) (indexed i0 (code_units s)))
    = Some (string_of_nat (i0 + i), string_of_nat (i0 + i), JStr (String c EmptyString)).
Proof.
  induction s as [|c0 s IH]; intros i0 i c Hget; [discriminate|].
  cbn [code_units indexed map last_write path_of fst snd].
  destruct i as [|i].
  - rewrite Nat.add_0_r. rewrite last_write_indexed_before by lia.
    rewrite String.eqb_refl. cbn in Hget. inversion Hget. reflexivity.
  - cbn [String.get] in Hget. replace (i0 + S i) with (S i0 + i) by lia.
    rewrite (IH (S i0) i c Hget). reflexivity.
Qed.

Lemma In_indexed_keys (s : string) :
  forall i0 k,
    In k (map path_of
            (map (fun kv : string * json => (fst kv, fst kv, snd kv))
                 (indexed i0 (code_units s)))) ->
    exists i, i < String.length s /\ k = string_of_nat (i0 + i).
Proof.
  induction s as [|c s IH]; intros i0 k; cbn [code_units indexed map In]; [intros []|].
  intros [E|H].
  - exists 0. cbn. rewrite Nat.add_0_r. split; [lia | symmetry; exact E].
  - destruct (IH (S i0) k H) as [i [Hi ->]]. exists (S i). cbn [String.length].
    split; [lia | f_equal; lia].
Qed.

Lemma shadowed_JStr (s : string) : shadowed (JStr s) = false.
Proof.
  unfold shadowed. cbn [own_enumerable]. generalize 0.
  induction s as [|c s IH]; intros i; [reflexivity|].
  cbn [code_units indexed existsb snd shadows orb]. apply IH.
Qed.

(** X17.  An element of the loaded array that is a string goes through the
    transform without an exception and is spread over one entry per code
    unit: the key is the index in decimal, the value the code unit as a
    string, and there is no other key. *)
Theorem X17_string_element_is_spread_by_index (s : string) :
  exists r,
    flatten (JStr s) = Normal r /\
    (forall i c, String.get i s = Some c ->
                 own r (string_of_nat i) = Some (VJson (JStr (String c EmptyString)))) /\
    (forall k, In k (keys r) -> exists i, i < String.length s /\ k = string_of_nat i).
Proof.
  eexists. split;
    [unfold flatten; rewrite flattenAndCleanObject_entries, shadowed_JStr; reflexivity|].
  rewrite entries_JStr. split.
  - intros i c Hget. rewrite own_writes by apply string_of_nat_not_proto.
    pose proof (last_write_indexed s 0 i c Hget) as Hlast. cbn [Nat.add] in Hlast.
    rewrite Hlast. reflexivity.
  - intros k Hk. apply keys_writes in Hk. destruct Hk as [[]|Hk].
    apply In_indexed_keys in Hk. exact Hk.
Qed.

End Coverage.

(** * Timestamps in local time *)

Section LocalTime.

Import LocalHost.

Variable localTZA : Z -> Z.

Lemma DayFromYear_succ (y : Z) :
  (DayFromYear (y + 1) = DayFromYear y + (if InLeapYear y then 366 else 365))%Z.
Proof.
  unfold DayFromYear, InLeapYear.
  destruct (y mod 4 =? 0)%Z eqn:E4; destruct (y mod 100 =? 0)%Z eqn:E100;
    destruct (y mod 400 =? 0)%Z eqn:E400; cbn [andb orb negb];
    Z.div_mod_to_equations; lia.
Qed.

(** The year of a day is the one that starts on or before it and ends
    after it. *)
Lemma YearFromDay_spec (day : Z) :
  (DayFromYear (YearFromDay day) <= day < DayFromYear (YearFromDay day + 1))%Z.
Proof.
  unfold YearFromDay. cbv zeta.
  set (y := (1970 + 400 * day / 146097)%Z).
  assert (Hy : (146097 * (y - 1970) <= 400 * day < 146097 * (y - 1970) + 146097)%Z).
  { unfold y. Z.div_mod_to_equations. lia. }
  clearbody y.
  assert (H1 : (DayFromYear (y - 1) <= day)%Z).
  { unfold DayFromYear. Z.div_mod_to_equations. lia. }
  assert (H2 : (day < DayFromYear (y + 2))%Z).
  { unfold DayFromYear. Z.div_mod_to_equations. lia. }
  destruct (day <? DayFromYear y)%Z eqn:E1.
  - apply Z.ltb_lt in E1. replace (y - 1 + 1)%Z with y by lia. lia.
  - apply Z.ltb_ge in E1. destruct (DayFromYear (y + 1) <=? day)%Z eqn:E2.
    + apply Z.leb_le in E2. replace (y + 1 + 1)%Z with (y + 2)%Z by lia. lia.
    + apply Z.leb_gt in E2. lia.
Qed.

(** The month of a day within the year is the one that starts on or before
    it and ends after it. *)
Lemma MonthFromDay_spec (leap : bool) (dayInYear : Z) :
  (0 <= dayInYear < (if leap then 366 else 365))%Z ->
  (1 <= MonthFromDay leap dayInYear <= 12)%Z /\
  (month_start leap (MonthFromDay leap dayInYear) <= dayInYear
   < month_start leap (MonthFromDay leap dayInYear + 1))%Z.
Proof.
  intros H. unfold MonthFromDay.
  repeat match goal with
         | |- context [(dayInYear <? ?b)%Z] =>
             let E := fresh "E" in
             destruct (Z.ltb_spec dayInYear b) as [E|E]; cbn in E
         end;
    destruct leap; cbn in *; lia.
Qed.

Lemma month_length (y m : Z) :
  (1 <= m <= 12)%Z ->
  (month_start (InLeapYear y) (m + 1) - month_start (InLeapYear y) m = days_in_month y m)%Z.
Proof.
  intros H. unfold days_in_month.
  assert (Hm : (m = 1 \/ m = 2 \/ m = 3 \/ m = 4 \/ m = 5 \/ m = 6 \/ m = 7 \/ m = 8 \/
                m = 9 \/ m = 10 \/ m = 11 \/ m = 12)%Z) by lia.
  destruct (InLeapYear y);
    repeat (destruct Hm as [->|Hm]; [reflexivity|]); subst m; reflexivity.
Qed.

(** The text of [local_format] names the day and the time of day of the
    local time value, second by second. *)
Lemma local_format_spec (t : Z) :
  exists Y M D h mi s,
    local_format localTZA t = date_text Y M D h mi s /\
    (1 <= M <= 12)%Z /\ (1 <= D <= days_in_month Y M)%Z /\
    (0 <= h < 24)%Z /\ (0 <= mi < 60)%Z /\ (0 <= s < 60)%Z /\
    ((t + localTZA t) / 1000 =
     days_from_civil Y M D * 86400 + h * 3600 + mi * 60 + s)%Z.
Proof.
  unfold local_format. cbv zeta.
  set (secs := ((t + localTZA t) / 1000)%Z).
  set (day := (secs / 86400)%Z).
  set (y := YearFromDay day).
  set (dayInYear := (day - DayFromYear y)%Z).
  set (m := MonthFromDay (InLeapYear y) dayInYear).
  pose proof (YearFromDay_spec day) as Hyear. fold y in Hyear.
  rewrite DayFromYear_succ in Hyear.
  assert (Hdiy : (0 <= dayInYear < (if InLeapYear y then 366 else 365))%Z)
    by (unfold dayInYear; lia).
  destruct (MonthFromDay_spec (InLeapYear y) dayInYear Hdiy) as [Hm Hstart]. fold m in Hm, Hstart.
  pose proof (month_length y m Hm) as Hlen.
  exists y, m, (dayInYear - month_start (InLeapYear y) m + 1)%Z,
    (secs mod 86400 / 3600)%Z, (secs mod 86400 mod 3600 / 60)%Z, (secs mod 86400 mod 60)%Z.
  split; [reflexivity|]. split; [exact Hm|]. split; [lia|].
  unfold days_from_civil.
  assert (Hday : (secs = day * 86400 + secs mod 86400)%Z)
    by (unfold day; Z.div_mod_to_equations; lia).
  assert (Hrange : (0 <= secs mod 86400 < 86400)%Z) by (apply Z.mod_pos_bound; lia).
  generalize dependent (secs mod 86400)%Z. intros sid Hday Hrange.
  repeat split; try (Z.div_mod_to_equations; lia).
Qed.

Lemma all_from_spec (fuel : nat) (P : Z -> bool) :
  forall lo, all_from fuel lo P = true ->
  forall z, (lo <= z < lo + Z.of_nat fuel)%Z -> P z = true.
Proof.
  induction fuel as [|k IH]; intros lo H z Hz; [lia|].
  cbn [all_from] in H. apply andb_prop in H. destruct H as [Hk Hrest].
  destruct (Z.eq_dec z lo) as [->|Hne]; [exact Hk|].
  apply (IH (lo + 1)%Z); [exact Hrest | lia].
Qed.

Lemma padded_2_length (z : Z) :
  (0 <= z <= 99)%Z -> String.length (ZHost.padded 2 z) = 2%nat.
Proof.
  intros H. apply Nat.eqb_eq.
  apply (all_from_spec 100 (fun z => Nat.eqb (String.length (ZHost.padded 2 z)) 2) 0%Z);
    [vm_compute; reflexivity | lia].
Qed.

Lemma padded_4_length (z : Z) :
  (0 <= z <= 9999)%Z -> String.length (ZHost.padded 4 z) = 4%nat.
Proof.
  intros H. apply Nat.eqb_eq.
  apply (all_from_spec (Z.to_nat 10000)
           (fun z => Nat.eqb (String.length (ZHost.padded 4 z)) 4) 0%Z);
    [vm_compute; reflexivity | rewrite Z2Nat.id; lia].
Qed.

(** Up to the year 9999 the text has the nineteen characters of the
    pattern. *)
Lemma date_text_length (Y M D h mi s : Z) :
  (0 <= Y <= 9999)%Z -> (1 <= M <= 12)%Z -> (1 <= D <= 31)%Z ->
  (0 <= h < 24)%Z -> (0 <= mi < 60)%Z -> (0 <= s < 60)%Z ->
  String.length (date_text Y M D h mi s) = 19%nat.
Proof.
  intros HY HM HD Hh Hmi Hs. unfold date_text.
  rewrite !length_append, padded_4_length, !padded_2_length by lia. reflexivity.
Qed.

Lemma days_in_month_bound (y m : Z) : (days_in_month y m <= 31)%Z.
Proof.
  unfold days_in_month.
  destruct (m =? 2)%Z; [destruct (InLeapYear y); lia|].
  destruct ((m =? 4) || (m =? 6) || (m =? 9) || (m =? 11))%Z; lia.
Qed.


End LocalTime.

(** * The model run on concrete inputs

    The runs below use the host of module [ZHost]. *)

Import ZHost.

(** C1.  [flatten({tags: [1, null]})] is [{tags: "[1,null]"}]: the array
    holds only scalars, yet it is serialized, because the test of line 164
    does not take null for a simple item; joining it would give ["1, "]. *)
Theorem C1_array_with_null_is_serialized :
  flatten (JObj [("tags", JArr [one; JNull])]) =
    Normal (mkObject ObjectPrototype [("tags", VJson (JStr "[1,null]"))]) /\
  simple JNull = false /\
  join ", " [one; JNull] = "1, ".
Proof. repeat split. Qed.

(** C2.  [flatten({"": {"": 1}})] is [{"": 1}]: the member [""] holds an
    object, its path is [""], and the result has an entry at that very path.
    [flatten({"": {a: {b: 1}}})] is [{"a.b": 1}]: the object under [a] is
    entered with the prefix [a], where the dotted path of [a] is [.a]. *)
Theorem C2_empty_key_writes_the_intermediate_path :
  flatten (JObj [(EmptyString, JObj [(EmptyString, one)])]) =
    Normal (mkObject ObjectPrototype [(EmptyString, VJson one)]) /\
  newKey EmptyString EmptyString = EmptyString /\
  flatten (JObj [(EmptyString, JObj [("a", JObj [("b", one)])])]) =
    Normal (mkObject ObjectPrototype [("a.b", VJson one)]) /\
  newKey (newKey EmptyString EmptyString) "a" = "a" /\
  concat_with "." [EmptyString; "a"] = ".a".
Proof. repeat split. Qed.



(** C5: the field [b] is absent from the source record and is a key of the
    projected record, holding [undefined]. *)
Lemma C5_absent_field_is_a_key :
  own row_a "b" = None /\
  map keys (project [row_a] ["a"; "b"]) = [["a"; "b"]] /\
  map (fun newRow => own newRow "b") (project [row_a] ["a"; "b"]) = [Some VUndefined].
Proof. repeat split. Qed.

(** C6: a boolean and null pass through the transform unchanged; they are
    neither strings nor numbers. *)
Lemma C6_boolean_and_null_values :
  flatten (JObj [("a", JBool true); ("b", JNull)]) =
    Normal (mkObject ObjectPrototype [("a", VJson (JBool true)); ("b", VJson JNull)]) /\
  string_or_number (VJson (JBool true)) = false /\
  string_or_number (VJson JNull) = false.
Proof. repeat split. Qed.

Lemma C6_flatten_values_are_primitive_witness :
  flatten (JObj [("a", JBool true); ("b", JArr [JArr [one]])]) =
    Normal (mkObject ObjectPrototype [("a", VJson (JBool true)); ("b", VJson (JStr "[[1]]"))]) /\
  primitive (VJson (JStr "[[1]]")) = true.
Proof.
  split; [reflexivity|].
  apply (C6_flatten_values_are_primitive
           (JObj [("a", JBool true); ("b", JArr [JArr [one]])])
           (mkObject ObjectPrototype [("a", VJson (JBool true)); ("b", VJson (JStr "[[1]]"))])
           eq_refl "b").
  right; left; reflexivity.
Defined.

(** C7.  After the file [a.json] with the text [[{"a":1}]] and then the
    file [b.json] whose text is the object [{"b":1}], the first field holds
    the object of [b.json] and the second still holds the records of
    [a.json]. *)
Theorem C7_shape_error_replaces_one_field :
  let a := mkFile "a.json" (Normal (JArr [JObj [("a", one)]])) in
  let b := mkFile "b.json" (Normal (JObj [("b", one)])) in
  let c1 := load a initial in
  let c2 := load b c1 in
  originalJsonData c1 = JArr [JObj [("a", one)]] /\
  flattenedAndCleanedData c1 = [row_a] /\
  originalJsonData c2 = JObj [("b", one)] /\
  flattenedAndCleanedData c2 = [row_a] /\
  messageDiv (elements c2) = "JSON data must be an array of objects.".
Proof. repeat split. Qed.

(** C8.  [flatten({"": {b: 1}})] is [{b: 1}]: the only path of the input has
    the keys [""] and ["b"], which join to [".b"]. *)
Theorem C8_empty_key_drops_the_dot :
  flatten (JObj [(EmptyString, JObj [("b", one)])]) =
    Normal (mkObject ObjectPrototype [("b", VJson one)]) /\
  paths (JObj [(EmptyString, JObj [("b", one)])]) = [[EmptyString; "b"]] /\
  concat_with "." [EmptyString; "b"] = ".b".
Proof. repeat split. Qed.

(** C9.  For the file [users.json.backup.json] the spreadsheet is written
    as [users.xlsx.backup.json], and for [users.JSON] as [users.JSON]. *)
Theorem C9_export_name_replaces_first_occurrence :
  exportFileName "users.json.backup.json" = "users.xlsx.backup.json" /\
  exportFileName "users.JSON" = "users.JSON" /\
  (let c := load (mkFile "users.json.backup.json" (Normal (JArr [JObj [("a", one)]]))) initial in
   downloads (fst (handleConvertButtonClick c)) = [("users.xlsx.backup.json", [row_a])]).
Proof. repeat split. Qed.

Lemma C10_scalar_element_gives_empty_record_witness :
  null_boolean_or_number JNull = true /\
  flatten JNull = Normal empty_object /\
  flattenedAndCleanedData
    (reader_onload (Normal (JArr ([JObj [("a", one)]] ++ JNull :: [JBool true]))) initial)
  = [row_a; empty_object; empty_object].
Proof.
  split; [reflexivity|].
  destruct (C10_scalar_element_gives_empty_record JNull eq_refl) as [Hflat Hload].
  split; [exact Hflat|].
  exact (proj1 (Hload [JObj [("a", one)]] [JBool true] [row_a] [empty_object] initial
                  eq_refl eq_refl)).
Defined.

(** ** Runs for the further properties *)

Lemma file_ab_loads : loads_as file_ab [row_ab].
Proof. exists [JObj [("a", one); ("b", one)]]. split; reflexivity. Defined.

Lemma X2_load_of_shadowed_element_witness :
  existsb shadowed [one; JObj [("hasOwnProperty", one)]] = true /\
  messageDiv (elements (reader_onload (Normal (JArr [one; JObj [("hasOwnProperty", one)]]))
                          (load file_ab initial)))
  = "Error reading JSON file: obj.hasOwnProperty is not a function" /\
  flattenedAndCleanedData (reader_onload (Normal (JArr [one; JObj [("hasOwnProperty", one)]]))
                             (load file_ab initial))
  = [row_ab].
Proof.
  split; [reflexivity|].
  destruct (X2_load_of_shadowed_element [one; JObj [("hasOwnProperty", one)]]
              (load file_ab initial) eq_refl) as [Hmessage [Hflat _]].
  split; [exact Hmessage | exact Hflat].
Defined.

Lemma X3_flatten_last_write_wins_witness :
  flatten (JObj [("a", JObj [("b", one)]); ("a.b", num 2)]) =
    Normal (mkObject ObjectPrototype [("a.b", VJson (num 2))]) /\
  own (mkObject ObjectPrototype [("a.b", VJson (num 2))]) "a.b" = Some (VJson (num 2)).
Proof.
  split; [reflexivity|].
  exact (proj2 (X3_flatten_last_write_wins
                  (JObj [("a", JObj [("b", one)]); ("a.b", num 2)]) EmptyString empty_object
                  (mkObject ObjectPrototype [("a.b", VJson (num 2))]) eq_refl)
               "a.b" ltac:(discriminate)).
Defined.

Lemma X4_flatten_keys_are_exactly_the_paths_witness :
  flatten (JObj [("a", JObj [("b", one); ("c", JArr [])]); ("d", JNull)]) =
    Normal (mkObject ObjectPrototype
              [("a.b", VJson one); ("a.c", VJson (JStr EmptyString)); ("d", VJson JNull)]) /\
  exists p,
    In p (paths (JObj [("a", JObj [("b", one); ("c", JArr [])]); ("d", JNull)])) /\
    "a.c" = concat_with "." p.
Proof.
  split; [reflexivity|].
  apply (proj1 (X4_flatten_keys_are_exactly_the_paths
                  [("a", JObj [("b", one); ("c", JArr [])]); ("d", JNull)]
                  (mkObject ObjectPrototype
                     [("a.b", VJson one); ("a.c", VJson (JStr EmptyString)); ("d", VJson JNull)])
                  "a.c"
                  ltac:(intros key v [H|[H|[]]]; inversion H; discriminate)
                  eq_refl ltac:(discriminate))).
  right; left; reflexivity.
Defined.

Lemma X5_flatten_keys_follow_the_order_of_the_writes_witness :
  keys (mkObject ObjectPrototype
          [("z", VJson one); ("a.c", VJson one); ("a.b", VJson one); ("b", VJson one)])
  = Set_from ["z"; "a.c"; "a.b"; "b"].
Proof.
  exact (X5_flatten_keys_follow_the_order_of_the_writes
           (JObj [("z", one); ("a", JObj [("c", one); ("b", one)]); ("b", one)])
           (mkObject ObjectPrototype
              [("z", VJson one); ("a.c", VJson one); ("a.b", VJson one); ("b", VJson one)])
           eq_refl
           ltac:(repeat constructor; discriminate)).
Defined.

Lemma X8_toggle_shows_the_checked_fields_witness :
  flattenedAndCleanedData (load file_ab initial) <> [] /\
  tableHeadersRow (elements (changeHandler "a" (load file_ab initial))) = ["b"] /\
  In "b" (tableHeadersRow (elements (changeHandler "a" (load file_ab initial)))).
Proof.
  split; [discriminate|]. split; [reflexivity|].
  destruct (X8_toggle_shows_the_checked_fields "a" (load file_ab initial) ltac:(discriminate))
    as [_ [_ [_ [_ [_ [_ Hshown]]]]]].
  apply Hshown; [left; reflexivity | discriminate].
Defined.

Lemma X10_failed_load_cannot_be_exported_witness :
  downloads (fst (handleConvertButtonClick (load file_broken (load file_ab initial)))) = [] /\
  flattenedAndCleanedData (load file_broken (load file_ab initial)) = [row_ab].
Proof.
  destruct (X10_failed_load_cannot_be_exported file_broken (load file_ab initial)
              ltac:(intros rows [items [H _]]; discriminate H))
    as [_ [_ [_ [_ [_ [_ [Hflat [Hdown _]]]]]]]].
  split; [exact Hdown | exact Hflat].
Defined.

Lemma X11_successful_load_witness :
  [row_ab] <> [] /\
  checkedFields (load file_ab (load file_broken initial)) = ["a"; "b"] /\
  tableHeadersRow (elements (load file_ab (load file_broken initial))) = ["a"; "b"].
Proof.
  split; [discriminate|].
  destruct (X11_successful_load file_ab [row_ab] (load file_broken initial)
              file_ab_loads ltac:(discriminate))
    as [_ [_ [_ [_ [_ [Hchecked [Hheaders _]]]]]]].
  split; [exact Hchecked | exact Hheaders].
Defined.

Lemma X12_load_of_the_empty_array_witness :
  parsed file_empty = Normal (JArr []) /\
  flattenedAndCleanedData (load file_empty (load file_ab initial)) = [] /\
  messageDiv (elements (load file_empty (load file_ab initial))) = EmptyString.
Proof.
  split; [reflexivity|].
  destruct (X12_load_of_the_empty_array file_empty (load file_ab initial) eq_refl)
    as [Hflat [Hmessage _]].
  split; [exact Hflat | exact Hmessage].
Defined.

Lemma X13_load_uncheck_export_witness :
  In "a" (deriveFields [row_ab]) /\
  downloads (run [FileChosen file_ab; BoxToggled "a"; ConvertClicked] initial) =
    [("ab.xlsx", [mkObject ObjectPrototype [("b", VJson one)]])].
Proof.
  split; [left; reflexivity|].
  exact (proj1 (X13_load_uncheck_export file_ab [row_ab] "a" initial
                  file_ab_loads ltac:(discriminate) (or_introl eq_refl)
                  ltac:(discriminate))).
Defined.

Lemma X16_project_is_idempotent_witness :
  ~ In "__proto__" ["a"; "c"] /\
  project (project [row_ab] ["a"; "c"]) ["a"; "c"] =
    [mkObject ObjectPrototype [("a", VJson one); ("c", VUndefined)]].
Proof.
  assert (H : ~ In "__proto__" ["a"; "c"]) by (intros [H|[H|[]]]; discriminate H).
  split; [exact H|].
  exact (eq_trans (X16_project_is_idempotent [row_ab] ["a"; "c"] H) eq_refl).
Defined.
